(** * changedetection-mcp-server: the request-handling path

    A shallow embedding of the two front ends of the repository:
    - [src/server.py]: [ChangeDetectionClient] and the tool front end
      [call_tool];
    - [src/api/serverless.py]: [validate_request], [sanitize_input],
      [create_response], [handle_action] and [async_handler].

    Conventions of the embedding.
    - A Python [str] is a [string]; one [ascii] stands for one code point
      below 256.
    - A JSON document (what [json.loads] returns, what the handlers pass
      around) is a [value]; a Python [dict] is an association list in
      insertion order, as Python keeps it.  JSON floats are left out.
    - Everything the code takes from outside (environment variables, the
      [httpx] transport, [json.loads], [repr] of a non-string object, the
      clock) is a field of [Env].
    - A computation returns the list of outbound HTTP calls it issued
      together with either a result or the exception it raised. *)

From Stdlib Require Import List String Ascii ZArith Bool Lia.
Import ListNotations.
Local Open Scope list_scope.
Local Open Scope string_scope.

Set Implicit Arguments.
Set Warnings "-register-all".

(** ** Python values *)

Inductive value : Type :=
| VNull
| VBool (b : bool)
| VInt (n : Z)
| VStr (s : string)
| VList (items : list value)
| VDict (entries : list (string * value)).

Definition dict := list (string * value).

(** Induction over [value] that reaches the members of lists and dicts. *)
Section ValueInd.
Variable P : value -> Prop.
Hypothesis HNull : P VNull.
Hypothesis HBool : forall b, P (VBool b).
Hypothesis HInt : forall n, P (VInt n).
Hypothesis HStr : forall s, P (VStr s).
Hypothesis HList : forall l, Forall P l -> P (VList l).
Hypothesis HDict : forall d, Forall (fun kv => P (snd kv)) d -> P (VDict d).

Fixpoint value_deep_ind (v : value) : P v :=
  match v with
  | VNull => HNull
  | VBool b => HBool b
  | VInt n => HInt n
  | VStr s => HStr s
  | VList l =>
      HList ((fix go (l : list value) : Forall P l :=
                match l with
                | [] => Forall_nil _
                | x :: r => Forall_cons _ (value_deep_ind x) (go r)
                end) l)
  | VDict d =>
      HDict ((fix go (d : dict) : Forall (fun kv => P (snd kv)) d :=
                match d with
                | [] => Forall_nil _
                | (k, x) :: r =>
                    Forall_cons (P := fun kv => P (snd kv)) (k, x)
                      (value_deep_ind x) (go r)
                end) d)
  end.
End ValueInd.

(** [bool(v)]: Python truthiness. *)
Definition truthy (v : value) : bool :=
  match v with
  | VNull => false
  | VBool b => b
  | VInt n => negb (n =? 0)%Z
  | VStr s => match s with EmptyString => false | _ => true end
  | VList l => match l with [] => false | _ => true end
  | VDict d => match d with [] => false | _ => true end
  end.

(** [type(v).__name__]. *)
Definition type_name (v : value) : string :=
  match v with
  | VNull => "NoneType"
  | VBool _ => "bool"
  | VInt _ => "int"
  | VStr _ => "str"
  | VList _ => "list"
  | VDict _ => "dict"
  end.

(** ** Dicts *)

(** [k in d] and [d[k]]. *)
Fixpoint lookup (k : string) (d : dict) : option value :=
  match d with
  | [] => None
  | (k', v) :: r => if k =? k' then Some v else lookup k r
  end.

(** [d.get(k)] and [d.get(k, default)]. *)
Definition dict_get (k : string) (d : dict) : value :=
  match lookup k d with Some v => v | None => VNull end.

Definition dict_get_default (k : string) (default : value) (d : dict) : value :=
  match lookup k d with Some v => v | None => default end.

(** [d[k] = v]: an existing key keeps its place, a new one goes last. *)
Fixpoint dict_set (k : string) (v : value) (d : dict) : dict :=
  match d with
  | [] => [(k, v)]
  | (k', v') :: r =>
      if k =? k' then (k, v) :: r else (k', v') :: dict_set k v r
  end.

(** [d.update(e)]. *)
Definition dict_update (d e : dict) : dict :=
  fold_left (fun acc kv => dict_set (fst kv) (snd kv) acc) e d.

(** ** Strings *)

Fixpoint chars (s : string) : list ascii :=
  match s with
  | EmptyString => []
  | String c r => c :: chars r
  end.

Fixpoint of_chars (l : list ascii) : string :=
  match l with
  | [] => EmptyString
  | c :: r => String c (of_chars r)
  end.

(** [s.replace(c, '')] for a one-character [c]: every occurrence goes. *)
Fixpoint remove_char (c : ascii) (s : string) : string :=
  match s with
  | EmptyString => EmptyString
  | String x r =>
      if Ascii.eqb x c then remove_char c r else String x (remove_char c r)
  end.

(** What [str.strip()] takes for whitespace, among the code points below
    256: TAB, LF, VT, FF, CR, FS, GS, RS, US, SPACE, NEL and NBSP. *)
Definition is_space (c : ascii) : bool :=
  let n := nat_of_ascii c in
  (((9 <=? n) && (n <=? 13)) || ((28 <=? n) && (n <=? 32))
   || (n =? 133) || (n =? 160))%nat.

Fixpoint lstrip (s : string) : string :=
  match s with
  | EmptyString => EmptyString
  | String c r => if is_space c then lstrip r else s
  end.

(** Dropping trailing whitespace: a character stays when it is not
    whitespace or something is left after it. *)
Fixpoint rstrip (s : string) : string :=
  match s with
  | EmptyString => EmptyString
  | String c r =>
      match rstrip r with
      | EmptyString => if is_space c then EmptyString else String c EmptyString
      | r' => String c r'
      end
  end.

(** [s.strip()]. *)
Definition strip (s : string) : string := rstrip (lstrip s).

(** [s.rstrip(c)] for a one-character [c]. *)
Fixpoint rstrip_char (c : ascii) (s : string) : string :=
  match s with
  | EmptyString => EmptyString
  | String x r =>
      match rstrip_char c r with
      | EmptyString => if Ascii.eqb x c then EmptyString else String x EmptyString
      | r' => String x r'
      end
  end.

(** [s.startswith(p)]. *)
Definition startswith (p s : string) : bool := String.prefix p s.

(** [p in s] for two strings. *)
Fixpoint contains (p s : string) : bool :=
  String.prefix p s ||
  match s with
  | EmptyString => false
  | String _ r => contains p r
  end.

(** ** [sanitize_input] (serverless.py) *)

Definition dangerous_chars : list ascii :=
  ["<"; ">"; "034"; "'"; "&"; ";"]%char.

(** The [for char in dangerous_chars: data = data.replace(char, '')] loop
    followed by [strip()]. *)
Definition sanitize_str (data : string) : string :=
  strip (fold_left (fun acc c => remove_char c acc) dangerous_chars data).

Fixpoint sanitize_input (data : value) : value :=
  match data with
  | VStr s => VStr (sanitize_str s)
  | VDict d =>
      VDict ((fix items (d : dict) : dict :=
                match d with
                | [] => []
                | (k, v) :: r => (k, sanitize_input v) :: items r
                end) d)
  | VList l => VList (map sanitize_input l)
  | _ => data
  end.

(** ** Outbound calls, exceptions and computations *)

(** One [httpx] request as [_request] issues it. *)
Record Call : Type := mkCall {
  call_method : string;
  call_url : string;
  call_headers : dict;
  call_json : option value;
  call_timeout : Z
}.

(** Python exceptions below [Exception]: [ServerlessError] with its three
    attributes, any other one with [type(e).__name__] and [str(e)]. *)
Inductive exn : Type :=
| ServerlessError (message : string) (status_code : Z) (details : dict)
| PyError (type : string) (text : string).

Definition exn_str (e : exn) : string :=
  match e with
  | ServerlessError m _ _ => m
  | PyError _ t => t
  end.

Definition exn_type_name (e : exn) : string :=
  match e with
  | ServerlessError _ _ _ => "ServerlessError"
  | PyError t _ => t
  end.

(** A computation: the calls issued, then the exception raised or the
    value returned. *)
Definition M (A : Type) : Type := (list Call * (exn + A))%type.

Definition ret {A} (a : A) : M A := ([], inr a).

Definition raise {A} (e : exn) : M A := ([], inl e).

Definition bind {A B} (m : M A) (f : A -> M B) : M B :=
  match m with
  | (cs, inl e) => (cs, inl e)
  | (cs, inr a) => let (cs', r) := f a in ((cs ++ cs')%list, r)
  end.

(** [try: m  except Exception as e: h e]. *)
Definition try_except {A} (m : M A) (h : exn -> M A) : M A :=
  match m with
  | (cs, inl e) => let (cs', r) := h e in ((cs ++ cs')%list, r)
  | (cs, inr a) => (cs, inr a)
  end.

Notation "x <- m ;; k" := (bind m (fun x => k))
  (at level 61, m at next level, right associativity).
Notation "m ;;; k" := (bind m (fun _ => k))
  (at level 61, right associativity).

Definition calls_of {A} (m : M A) : list Call := fst m.

(** ** The environment of a process *)

Record Env : Type := mkEnv {
  (** [os.getenv("CHANGEDETECTION_URL", "http://localhost:5000")] *)
  BASE_URL : string;
  (** [os.getenv("CHANGEDETECTION_API_KEY", '')] *)
  API_KEY : string;
  (** [os.getenv("DEBUG")] *)
  DEBUG : option string;
  (** [os.getenv("ENABLE_CORS", "true").lower() == "true"] *)
  ENABLE_CORS : bool;
  (** [os.getenv("ALLOWED_ORIGINS", "*").split(",")] *)
  ALLOWED_ORIGINS : list string;
  (** [datetime.utcnow().isoformat()] *)
  utcnow_isoformat : string;
  (** [json.loads]: the text of the [JSONDecodeError] or the document *)
  json_loads : string -> string + value;
  (** [str] of an object that is not a [str] *)
  py_repr : value -> string;
  (** the [httpx] request followed by [raise_for_status()]: the type and
      text of the exception raised, or [response.text] *)
  transport : Call -> (string * string) + string
}.

(** [str(v)], also what an f-string puts for [{v}]. *)
Definition py_str (w : Env) (v : value) : string :=
  match v with
  | VStr s => s
  | _ => py_repr w v
  end.

(** [v == s] for a string literal [s]. *)
Definition eq_str (v : value) (s : string) : bool :=
  match v with
  | VStr s' => s' =? s
  | _ => false
  end.

Definition attribute_error {A} (obj : value) (attr : string) : M A :=
  raise (PyError "AttributeError"
           ("'" ++ type_name obj ++ "' object has no attribute '" ++ attr ++ "'")).

(** [obj.get(k)] and [obj.get(k, default)] on an object of any type. *)
Definition py_get (obj : value) (k : string) : M value :=
  match obj with
  | VDict d => ret (dict_get k d)
  | _ => attribute_error obj "get"
  end.

Definition py_get_default (obj : value) (k : string) (default : value) : M value :=
  match obj with
  | VDict d => ret (dict_get_default k default d)
  | _ => attribute_error obj "get"
  end.

(** [k in obj] for a string [k]. *)
Definition py_contains (obj : value) (k : string) : M bool :=
  match obj with
  | VDict d => ret (match lookup k d with Some _ => true | None => false end)
  | VList l => ret (existsb (fun x => eq_str x k) l)
  | VStr s => ret (contains k s)
  | _ => raise (PyError "TypeError"
                  ("argument of type '" ++ type_name obj ++ "' is not iterable"))
  end.

(** [obj[k]] for a string [k]. *)
Definition py_getitem (obj : value) (k : string) : M value :=
  match obj with
  | VDict d =>
      match lookup k d with
      | Some v => ret v
      | None => raise (PyError "KeyError" ("'" ++ k ++ "'"))
      end
  | VList _ =>
      raise (PyError "TypeError" "list indices must be integers or slices, not str")
  | VStr _ =>
      raise (PyError "TypeError" "string indices must be integers, not 'str'")
  | _ => raise (PyError "TypeError"
                  ("'" ++ type_name obj ++ "' object is not subscriptable"))
  end.

(** ** [ChangeDetectionClient] (server.py) *)

Record ChangeDetectionClient : Type := mkClient {
  base_url : string;
  api_key : string;
  headers : dict
}.

(** [__init__]. *)
Definition new_client (base_url api_key : string) : ChangeDetectionClient :=
  {| base_url := rstrip_char "/" base_url;
     api_key := api_key;
     headers := if truthy (VStr api_key)
                then [("x-api-key", VStr api_key)] else [] |}.

(** The module-level [client = ChangeDetectionClient(BASE_URL, API_KEY)]. *)
Definition client (w : Env) : ChangeDetectionClient :=
  new_client (BASE_URL w) (API_KEY w).

Section Client.
Variable w : Env.
Variable self : ChangeDetectionClient.

(** What comes back of a call: the exception of the transport, or
    [response.json() if response.text else {}]. *)
Definition settle (c : Call) : exn + value :=
  match transport w c with
  | inl (ty, text) => inl (PyError ty text)
  | inr text =>
      if truthy (VStr text)
      then match json_loads w text with
           | inl err => inl (PyError "JSONDecodeError" err)
           | inr v => inr v
           end
      else inr (VDict [])
  end.

(** One request goes out. *)
Definition send (method url : string) (json : option value) : M value :=
  let c := mkCall method url (headers self) json 30 in
  ([c], settle c).

Definition _request (method endpoint : string) (data : option value) : M value :=
  let url := base_url self ++ endpoint in
  if method =? "GET" then send method url None
  else if method =? "POST" then send method url data
  else if method =? "DELETE" then send method url None
  else if method =? "PUT" then send method url data
  else raise (PyError "ValueError" ("Unsupported method: " ++ method)).

Definition list_watches : M value :=
  _request "GET" "/api/v1/watch" None.

Definition get_watch (watch_id : value) : M value :=
  _request "GET" ("/api/v1/watch/" ++ py_str w watch_id) None.

Definition create_watch (url tag : value) : M value :=
  let data := [("url", url)] in
  let data := if truthy tag then dict_set "tag" tag data else data in
  _request "POST" "/api/v1/watch" (Some (VDict data)).

Definition delete_watch (watch_id : value) : M value :=
  _request "DELETE" ("/api/v1/watch/" ++ py_str w watch_id) None.

Definition trigger_check (watch_id : value) : M value :=
  _request "GET" ("/api/v1/watch/" ++ py_str w watch_id ++ "/trigger") None.

Definition get_history (watch_id : value) : M value :=
  _request "GET" ("/api/v1/watch/" ++ py_str w watch_id ++ "/history") None.

Definition system_info : M value :=
  _request "GET" "/api/v1/systeminfo" None.
End Client.

(** ** The HTTP front end (serverless.py) *)

(** [ServerlessError(message, status_code, details)]: [details or {}]. *)
Definition serverless_error (message : string) (status_code : Z)
    (details : option dict) : exn :=
  ServerlessError message status_code
    (match details with Some d => d | None => [] end).

Definition str_list (l : list string) : value := VList (map VStr l).

Definition required_fields : list string := ["action"].

Definition valid_actions : list string :=
  ["list_watches"; "get_watch"; "create_watch"; "delete_watch";
   "trigger_check"; "get_history"; "system_info"; "health_check"].

Section HttpFrontEnd.
Variable w : Env.

(** The [for field in required_fields] loop of [validate_request]. *)
Fixpoint check_required (fields : list string) (body : value) : M unit :=
  match fields with
  | [] => ret tt
  | field :: rest =>
      present <- py_contains body field ;;
      if negb present
      then raise (serverless_error ("Missing required field: " ++ field) 400
                    (Some [("required_fields", str_list required_fields)]))
      else check_required rest body
  end.

Definition validate_request (body : value) : M unit :=
  check_required required_fields body ;;;
  action <- py_getitem body "action" ;;
  if negb (existsb (eq_str action) valid_actions)
  then raise (serverless_error ("Invalid action: " ++ py_str w action) 400
                (Some [("valid_actions", str_list valid_actions)]))
  else ret tt.

(** The dict [create_response] returns; [resp_body] is the dict it hands
    to [json.dumps(body, indent=2)]. *)
Record response : Type := mkResponse {
  statusCode : Z;
  resp_headers : dict;
  resp_body : dict
}.

Definition create_response (status_code : Z) (body : dict)
    (headers : option dict) : response :=
  let default_headers :=
    [("Content-Type", VStr "application/json");
     ("X-Content-Type-Options", VStr "nosniff");
     ("X-Frame-Options", VStr "DENY");
     ("X-XSS-Protection", VStr "1; mode=block")] in
  let default_headers :=
    if ENABLE_CORS w
    then dict_update default_headers
           [("Access-Control-Allow-Origin",
             VStr (match ALLOWED_ORIGINS w with o :: _ => o | [] => "*" end));
            ("Access-Control-Allow-Methods", VStr "GET, POST, OPTIONS");
            ("Access-Control-Allow-Headers", VStr "Content-Type, Authorization")]
    else default_headers in
  let default_headers :=
    match headers with
    | Some h => if truthy (VDict h) then dict_update default_headers h
                else default_headers
    | None => default_headers
    end in
  let body :=
    dict_set "_metadata"
      (VDict [("timestamp", VStr (utcnow_isoformat w ++ "Z"));
              ("version", VStr "1.0.0")]) body in
  mkResponse status_code default_headers body.

Definition success (result : value) : dict :=
  [("success", VBool true); ("data", result)].

(** The branches of [handle_action] that take a [watch_id]. *)
Definition with_watch_id (params : value) (op : value -> M value) : M dict :=
  watch_id <- py_get params "watch_id" ;;
  if negb (truthy watch_id)
  then raise (serverless_error "watch_id is required" 400 None)
  else result <- op watch_id ;; ret (success result).

(** The [try] block of [handle_action]. *)
Definition handle_action_body (action params : value) : M dict :=
  if eq_str action "list_watches" then
    result <- list_watches w (client w) ;; ret (success result)
  else if eq_str action "get_watch" then
    with_watch_id params (get_watch w (client w))
  else if eq_str action "create_watch" then
    url <- py_get params "url" ;;
    tag <- py_get params "tag" ;;
    if negb (truthy url)
    then raise (serverless_error "url is required" 400 None)
    else result <- create_watch w (client w) url tag ;; ret (success result)
  else if eq_str action "delete_watch" then
    with_watch_id params (delete_watch w (client w))
  else if eq_str action "trigger_check" then
    with_watch_id params (trigger_check w (client w))
  else if eq_str action "get_history" then
    with_watch_id params (get_history w (client w))
  else if eq_str action "system_info" then
    result <- system_info w (client w) ;; ret (success result)
  else if eq_str action "health_check" then
    ret [("success", VBool true);
         ("status", VStr "healthy");
         ("data", VDict [("changedetection_url", VStr (BASE_URL w));
                         ("api_key_configured", VBool (truthy (VStr (API_KEY w))))])]
  else raise (serverless_error ("Unknown action: " ++ py_str w action) 400 None).

Definition handle_action (action params : value) : M dict :=
  try_except (handle_action_body action params)
    (fun e =>
       match e with
       | ServerlessError _ _ _ => raise e
       | _ =>
           raise (serverless_error ("Internal server error: " ++ exn_str e) 500
                    (Some [("action", action);
                           ("error_type", VStr (exn_type_name e))]))
       end).

(** [json.loads(body_str) if isinstance(body_str, str) else body_str],
    with the [JSONDecodeError] turned into a [ServerlessError]. *)
Definition parse_body (body_str : value) : M value :=
  match body_str with
  | VStr s =>
      match json_loads w s with
      | inr body => ret body
      | inl err =>
          raise (serverless_error "Invalid JSON in request body" 400
                   (Some [("error", VStr err)]))
      end
  | _ => ret body_str
  end.

(** The argument of the [logger.info] call that reads [params]:
    [list(params.keys()) if params else []]. *)
Definition logged_params (params : value) : M value :=
  if truthy params
  then match params with
       | VDict d => ret (str_list (map fst d))
       | _ => attribute_error params "keys"
       end
  else ret (VList []).

(** The [try] block of [async_handler]. *)
Definition async_handler_body (event : dict) : M response :=
  if eq_str (dict_get "httpMethod" event) "OPTIONS"
  then ret (create_response 200 [("message", VStr "CORS preflight OK")] None)
  else
    let body_str := dict_get_default "body" (VStr "{}") event in
    body <- parse_body body_str ;;
    validate_request body ;;;
    raw_action <- py_getitem body "action" ;;
    let action := sanitize_input raw_action in
    raw_params <- py_get_default body "params" (VDict []) ;;
    let params := sanitize_input raw_params in
    logged_params params ;;;
    result <- handle_action action params ;;
    ret (create_response 200 result None).

(** [os.getenv("DEBUG") == "true"]. *)
Definition debug_mode : bool :=
  match DEBUG w with
  | Some d => d =? "true"
  | None => false
  end.

(** The two [except] clauses of [async_handler]. *)
Definition error_response (e : exn) : response :=
  match e with
  | ServerlessError message status_code details =>
      create_response status_code
        [("success", VBool false);
         ("error", VStr message);
         ("details", VDict details)] None
  | _ =>
      create_response 500
        [("success", VBool false);
         ("error", VStr "Internal server error");
         ("message",
          VStr (if debug_mode
                then exn_str e
                else "An unexpected error occurred"))] None
  end.

(** [async_handler] from its [try] statement on: the [try] block and the
    two [except] clauses.  This is the whole of [async_handler] for a
    context that is [None], falsy or a mapping.  The statement before the
    [try], which asks the context for its [requestId] and raises on a
    truthy context that has no [get], is [request_id] below, and
    [async_handler_in_context] puts the two together.  The logger is left
    out, except for the argument of its that can raise
    ([logged_params]). *)
Definition async_handler (event : dict) : M response :=
  try_except (async_handler_body event) (fun e => ret (error_response e)).
End HttpFrontEnd.

(** ** The tool front end (server.py) *)

Record TextContent : Type := mkTextContent {
  type : string;
  text : string
}.

Section ToolFrontEnd.
Variable w : Env.

Definition text_reply (s : string) : list TextContent :=
  [mkTextContent "text" s].

(** The branches of [call_tool] that take a [watch_id]. *)
Definition tool_with_watch_id (arguments : value) (op : value -> M value)
    : M (list TextContent) :=
  watch_id <- py_get arguments "watch_id" ;;
  if negb (truthy watch_id)
  then ret (text_reply "Error: watch_id is required")
  else result <- op watch_id ;; ret (text_reply (py_str w result)).

(** The [try] block of [call_tool]. *)
Definition call_tool_body (name : string) (arguments : value)
    : M (list TextContent) :=
  if name =? "list_watches" then
    result <- list_watches w (client w) ;; ret (text_reply (py_str w result))
  else if name =? "get_watch" then
    tool_with_watch_id arguments (get_watch w (client w))
  else if name =? "create_watch" then
    url <- py_get arguments "url" ;;
    tag <- py_get arguments "tag" ;;
    if negb (truthy url)
    then ret (text_reply "Error: url is required")
    else result <- create_watch w (client w) url tag ;;
         ret (text_reply (py_str w result))
  else if name =? "delete_watch" then
    tool_with_watch_id arguments (delete_watch w (client w))
  else if name =? "trigger_check" then
    tool_with_watch_id arguments (trigger_check w (client w))
  else if name =? "get_history" then
    tool_with_watch_id arguments (get_history w (client w))
  else if name =? "system_info" then
    result <- system_info w (client w) ;; ret (text_reply (py_str w result))
  else ret (text_reply ("Error: Unknown tool '" ++ name ++ "'")).

Definition call_tool (name : string) (arguments : value)
    : M (list TextContent) :=
  try_except (call_tool_body name arguments)
    (fun e => ret (text_reply ("Error: " ++ exn_str e))).
End ToolFrontEnd.

(** * The vocabulary of the statements below *)

(** ** Sanitization as the specification words it, over code points *)

Fixpoint drop_while (p : ascii -> bool) (l : list ascii) : list ascii :=
  match l with
  | [] => []
  | c :: r => if p c then drop_while p r else l
  end.

Definition ltrim (l : list ascii) : list ascii := drop_while is_space l.
Definition rtrim (l : list ascii) : list ascii := rev (drop_while is_space (rev l)).
Definition trim (l : list ascii) : list ascii := rtrim (ltrim l).

(** The six characters the specification lists. *)
Definition stripped_char (c : ascii) : bool :=
  (Ascii.eqb c "<" || Ascii.eqb c ">" || Ascii.eqb c "034"
   || Ascii.eqb c "'" || Ascii.eqb c "&" || Ascii.eqb c ";")%char.

(** The specification's sanitizer of one string: drop the six characters,
    then trim. *)
Definition sanitize_str_spec (s : string) : string :=
  of_chars (trim (filter (fun c => negb (stripped_char c)) (chars s))).

(** The specification's sanitizer: strings sanitized wherever they occur as
    values, keys and order kept, anything else untouched. *)
Fixpoint sanitize_spec (v : value) : value :=
  match v with
  | VStr s => VStr (sanitize_str_spec s)
  | VDict d =>
      VDict ((fix go (d : dict) : dict :=
                match d with
                | [] => []
                | kv :: r => (fst kv, sanitize_spec (snd kv)) :: go r
                end) d)
  | VList l =>
      VList ((fix go (l : list value) : list value :=
                match l with
                | [] => []
                | x :: r => sanitize_spec x :: go r
                end) l)
  | VNull | VBool _ | VInt _ => v
  end.

(** The [dict] comprehension of [sanitize_input], unfolded. *)
Definition sanitize_items (d : dict) : dict :=
  map (fun kv => (fst kv, sanitize_input (snd kv))) d.

(** ** The action table of the specification *)

Inductive segment : Type :=
| Lit (s : string)
| Param (name : string).

Record descriptor : Type := mkDescriptor {
  d_method : string;
  d_path : list segment;
  d_required : list string
}.

Definition action_table : list (string * descriptor) :=
  [("list_watches", mkDescriptor "GET" [Lit "/api/v1/watch"] []);
   ("get_watch",
    mkDescriptor "GET" [Lit "/api/v1/watch/"; Param "watch_id"] ["watch_id"]);
   ("create_watch", mkDescriptor "POST" [Lit "/api/v1/watch"] ["url"]);
   ("delete_watch",
    mkDescriptor "DELETE" [Lit "/api/v1/watch/"; Param "watch_id"] ["watch_id"]);
   ("trigger_check",
    mkDescriptor "GET"
      [Lit "/api/v1/watch/"; Param "watch_id"; Lit "/trigger"] ["watch_id"]);
   ("get_history",
    mkDescriptor "GET"
      [Lit "/api/v1/watch/"; Param "watch_id"; Lit "/history"] ["watch_id"]);
   ("system_info", mkDescriptor "GET" [Lit "/api/v1/systeminfo"] [])].

(** A path template with its parameters taken from [params]. *)
Fixpoint substitute (w : Env) (path : list segment) (params : dict) : string :=
  match path with
  | [] => EmptyString
  | Lit s :: rest => s ++ substitute w rest params
  | Param k :: rest => py_str w (dict_get k params) ++ substitute w rest params
  end.

(** A parameter is given when the mapping has it with a truthy value: for
    a string, a non-empty one. *)
Definition given (k : string) (params : dict) : Prop :=
  exists v, lookup k params = Some v /\ truthy v = true.

(** A parameter is absent or empty. *)
Definition absent_or_empty (k : string) (params : dict) : Prop :=
  lookup k params = None \/ lookup k params = Some (VStr EmptyString).

(** What the specification says of the body of a [create_watch] call:
    [url] as given, [tag] as given when one is given and left out
    otherwise, and no other field. *)
Definition url_and_optional_tag (params body : dict) : Prop :=
  lookup "url" body = lookup "url" params
  /\ (given "tag" params -> lookup "tag" body = lookup "tag" params)
  /\ (~ given "tag" params -> lookup "tag" body = None)
  /\ (forall k, k <> "url" -> k <> "tag" -> lookup k body = None).

(** ** Requests and responses *)

(** A computation that issues no call. *)
Definition pure {A} (m : M A) : Prop := calls_of m = [].

(** The CORS preflight test. *)
Definition is_preflight (event : dict) : bool :=
  eq_str (dict_get "httpMethod" event) "OPTIONS".

(** The body of the request, parsed. *)
Definition request_body (w : Env) (event : dict) : M value :=
  parse_body w (dict_get_default "body" (VStr "{}") event).

(** What [async_handler] makes of the outcome of [handle_action]. *)
Definition respond (w : Env) (m : M dict) : M response :=
  try_except (result <- m ;; ret (create_response w 200 result None))
    (fun e => ret (error_response w e)).

(** [v[k1][k2]...] in a JSON document, when every step is a dict that has
    the key. *)
Fixpoint value_at (path : list string) (v : value) : option value :=
  match path with
  | [] => Some v
  | k :: rest =>
      match v with
      | VDict d =>
          match lookup k d with
          | Some x => value_at rest x
          | None => None
          end
      | _ => None
      end
  end.

(** ** Sample environments and requests *)

(** A [json.loads] that knows three documents; the examples below parse no
    other. *)
Definition sample_json_loads (s : string) : string + value :=
  if s =? "{}" then inr (VDict [])
  else if s =? "[]" then inr (VList [])
  else if s =? "null" then inr VNull
  else inl "Expecting value: line 1 column 1 (char 0)".

(** A process with an API key and no [DEBUG], whose remote service does not
    answer in time. *)
Definition env_remote_down : Env :=
  {| BASE_URL := "http://localhost:5000/";
     API_KEY := "secret";
     DEBUG := None;
     ENABLE_CORS := true;
     ALLOWED_ORIGINS := ["*"];
     utcnow_isoformat := "2024-05-01T12:00:00";
     json_loads := sample_json_loads;
     py_repr := fun _ => "<object>";
     transport := fun _ => inl ("ReadTimeout", "The read operation timed out") |}.

(** A process without an API key whose remote service answers 200 with an
    empty body. *)
Definition env_remote_up : Env :=
  {| BASE_URL := "http://localhost:5000";
     API_KEY := EmptyString;
     DEBUG := None;
     ENABLE_CORS := false;
     ALLOWED_ORIGINS := ["*"];
     utcnow_isoformat := "2024-05-01T12:00:00";
     json_loads := sample_json_loads;
     py_repr := fun _ => "<object>";
     transport := fun _ => inr EmptyString |}.

(** The environment with another setting of [DEBUG]. *)
Definition with_debug (w : Env) (debug : option string) : Env :=
  {| BASE_URL := BASE_URL w;
     API_KEY := API_KEY w;
     DEBUG := debug;
     ENABLE_CORS := ENABLE_CORS w;
     ALLOWED_ORIGINS := ALLOWED_ORIGINS w;
     utcnow_isoformat := utcnow_isoformat w;
     json_loads := json_loads w;
     py_repr := py_repr w;
     transport := transport w |}.

(** A POST whose body the platform hands over as a dict. *)
Definition post (body : dict) : dict :=
  [("httpMethod", VStr "POST"); ("body", VDict body)].

(** A POST whose body the platform hands over as any value. *)
Definition post_raw (body : value) : dict :=
  [("httpMethod", VStr "POST"); ("body", body)].

Definition request (action : string) (params : dict) : dict :=
  post [("action", VStr action); ("params", VDict params)].

(** ** Readings of a response and of a tool reply *)

(** The texts of a response that a caller reads as its error message. *)
Definition presented_messages (r : response) : list string :=
  (match lookup "error" (resp_body r) with Some (VStr m) => [m] | _ => [] end)
  ++ (match lookup "message" (resp_body r) with Some (VStr m) => [m] | _ => [] end).

Definition omits_text (t : string) (r : response) : Prop :=
  forall m, In m (presented_messages r) -> contains t m = false.

(** The answer to a request that lacks a required parameter. *)
Definition missing_parameter_response (w : Env) (field : string) : response :=
  create_response w 400
    [("success", VBool false);
     ("error", VStr (field ++ " is required"));
     ("details", VDict [])] None.

(** What the [try] block of [call_tool] can do: reply with an error text
    without any call, raise without any call, or issue one call and either
    raise what it raised or reply with its result. *)
Inductive tool_outcome (w : Env) (m : M (list TextContent)) : Prop :=
| LocalError (reply : string)
    (E : m = ret (text_reply reply))
    (P : startswith "Error:" reply = true)
| LocalRaise (e : exn) (E : m = raise e)
| Called (c : Call)
    (E : m = ([c], match settle w c with
                   | inl e => inl e
                   | inr result => inr (text_reply (py_str w result))
                   end)).

(** * The rest of the two files *)

(** ** The tool catalog (server.py) *)

(** An [mcp.types.Tool]. *)
Record Tool : Type := mkTool {
  tool_name : string;
  tool_description : string;
  inputSchema : value
}.

(** The schema of a tool that takes the string [arg] and requires it. *)
Definition one_required (arg about : string) : value :=
  VDict [("type", VStr "object");
         ("properties",
          VDict [(arg, VDict [("type", VStr "string");
                              ("description", VStr about)])]);
         ("required", VList [VStr arg])].

Definition no_arguments : value :=
  VDict [("type", VStr "object");
         ("properties", VDict []);
         ("required", VList [])].

(** [list_tools]. *)
Definition list_tools : list Tool :=
  [mkTool "list_watches"
     "List all website watches configured in changedetection.io"
     no_arguments;
   mkTool "get_watch"
     "Get detailed information about a specific watch including URL, last check time, and change detection settings"
     (one_required "watch_id" "The UUID of the watch to retrieve");
   mkTool "create_watch"
     "Create a new watch to monitor a website for changes"
     (VDict [("type", VStr "object");
             ("properties",
              VDict [("url",
                      VDict [("type", VStr "string");
                             ("description",
                              VStr "The URL to monitor for changes")]);
                     ("tag",
                      VDict [("type", VStr "string");
                             ("description",
                              VStr "Optional tag to categorize the watch")])]);
             ("required", VList [VStr "url"])]);
   mkTool "delete_watch"
     "Delete a watch and stop monitoring the associated URL"
     (one_required "watch_id" "The UUID of the watch to delete");
   mkTool "trigger_check"
     "Manually trigger a change detection check for a specific watch"
     (one_required "watch_id" "The UUID of the watch to check");
   mkTool "get_history"
     "Get the history of detected changes for a specific watch"
     (one_required "watch_id" "The UUID of the watch to get history for");
   mkTool "system_info"
     "Get system information about the changedetection.io instance"
     no_arguments].

(** The strings of a JSON list. *)
Fixpoint strings_of (l : list value) : list string :=
  match l with
  | [] => []
  | VStr s :: r => s :: strings_of r
  | _ :: r => strings_of r
  end.

(** What a schema lists under [required] and declares under [properties]. *)
Definition schema_required (schema : value) : list string :=
  match value_at ["required"] schema with
  | Some (VList l) => strings_of l
  | _ => []
  end.

Definition schema_properties (schema : value) : list string :=
  match value_at ["properties"] schema with
  | Some (VDict d) => map fst d
  | _ => []
  end.

(** ** [async_handler] with its context, and [handler] (serverless.py) *)

(** [context.get("requestId", "unknown") if context else "unknown"], which
    [async_handler] evaluates before it enters its [try] block. *)
Definition request_id (context : value) : M value :=
  if truthy context
  then py_get_default context "requestId" (VStr "unknown")
  else ret (VStr "unknown").

(** [async_handler(event, context)], the first line included. *)
Definition async_handler_in_context (w : Env) (event : dict) (context : value)
    : M response :=
  request_id context ;;; async_handler w event.

(** [handler(event, context=None)]: [asyncio.run] of the above. *)
Definition handler (w : Env) (event : dict) (context : option value)
    : M response :=
  async_handler_in_context w event
    (match context with Some c => c | None => VNull end).

(** ** Readings of values, calls and outcomes *)

(** A list of code points that neither starts nor ends with whitespace. *)
Definition edges_trimmed (l : list ascii) : bool :=
  match l, rev l with
  | c :: _, d :: _ => negb (is_space c) && negb (is_space d)
  | _, _ => true
  end.

(** A string without any of the six characters and without whitespace at
    its ends. *)
Definition clean_str (s : string) : bool :=
  forallb (fun c => negb (stripped_char c)) (chars s) && edges_trimmed (chars s).

(** A value all of whose string values, at any depth, are clean. *)
Fixpoint clean_value (v : value) : bool :=
  match v with
  | VStr s => clean_str s
  | VList l => forallb clean_value l
  | VDict d =>
      (fix all (d : dict) : bool :=
         match d with
         | [] => true
         | (_, x) :: r => clean_value x && all r
         end) d
  | VNull | VBool _ | VInt _ => true
  end.

(** [s.endswith(c)] for a one-character [c]. *)
Fixpoint ends_with (c : ascii) (s : string) : bool :=
  match s with
  | EmptyString => false
  | String x EmptyString => Ascii.eqb x c
  | String _ r => ends_with c r
  end.

(** A call as the operations of the module-level client build it: a GET,
    POST or DELETE of an endpoint under [/api/v1/] behind the client's base
    URL, with the client's headers and the timeout of 30, and with a JSON
    body on a POST only. *)
Definition sent_by_client (w : Env) (c : Call) : Prop :=
  exists method endpoint json,
    c = mkCall method (base_url (client w) ++ endpoint)
          (headers (client w)) json 30
    /\ In method ["GET"; "POST"; "DELETE"]
    /\ startswith "/api/v1/" endpoint = true
    /\ (method = "POST" \/ json = None).

(** An operation of the client: one such call, and what comes back of it. *)
Definition client_op (w : Env) (op : M value) : Prop :=
  exists c, sent_by_client w c /\ op = ([c], settle w c).

(** An exception raised before anything goes out: a [ServerlessError] of
    status 400, or an exception of the interpreter. *)
Definition local_exn (e : exn) : Prop :=
  match e with
  | ServerlessError _ code _ => code = 400%Z
  | PyError _ _ => True
  end.

(** A computation that issues no call and raises local exceptions only. *)
Definition local {A} (m : M A) : Prop :=
  (exists a, m = ret a) \/ (exists e, m = raise e /\ local_exn e).

(** What the [try] block of [handle_action] can do: return a success
    without any call, raise without any call, or issue one call through the
    client and either raise what it raised or return its result wrapped. *)
Inductive dispatch_outcome (w : Env) (m : M dict) : Prop :=
| Answered (result : dict) (E : m = ret result)
    (T : lookup "success" result = Some (VBool true))
| Refused (e : exn) (E : m = raise e) (K : local_exn e)
| Dispatched (c : Call) (S : sent_by_client w c)
    (E : m = ([c], match settle w c with
                   | inl e => inl e
                   | inr result => inr (success result)
                   end)).

(** No call, or one call of the client. *)
Definition at_most_one_client_call (w : Env) (cs : list Call) : Prop :=
  cs = [] \/ exists c, cs = [c] /\ sent_by_client w c.

(** The answer to an exception that [handle_action] did not classify. *)
Definition unexpected_error_response (w : Env) (text : string) : response :=
  create_response w 500
    [("success", VBool false);
     ("error", VStr "Internal server error");
     ("message", VStr (if debug_mode w then text
                       else "An unexpected error occurred"))] None.

(** The answer to a [ServerlessError]. *)
Definition classified_error_response (w : Env) (message : string)
    (status_code : Z) (details : dict) : response :=
  create_response w status_code
    [("success", VBool false);
     ("error", VStr message);
     ("details", VDict details)] None.

(** Every way [async_handler] answers: the preflight acknowledgement, a
    success, the answer to a [ServerlessError], the answer to any other
    exception. *)
Inductive answered (w : Env) (m : M response) : Prop :=
| Preflight
    (E : m = ret (create_response w 200
                    [("message", VStr "CORS preflight OK")] None))
| Success (cs : list Call) (result : dict)
    (C : at_most_one_client_call w cs)
    (T : lookup "success" result = Some (VBool true))
    (E : m = (cs, inr (create_response w 200 result None)))
| Classified (cs : list Call) (message : string) (code : Z) (details : dict)
    (C : at_most_one_client_call w cs)
    (K : (code = 400 \/ code = 500)%Z)
    (N : code = 400%Z -> cs = [])
    (E : m = (cs, inr (classified_error_response w message code details)))
| Unexpected (text : string)
    (E : m = ret (unexpected_error_response w text)).

(** * Sanitization *)

(** ** Strings and lists of code points *)

Lemma of_chars_chars (s : string) : of_chars (chars s) = s.
Proof. induction s as [|c r IH]; simpl; [reflexivity | now rewrite IH]. Qed.

Lemma chars_of_chars (l : list ascii) : chars (of_chars l) = l.
Proof. induction l as [|c r IH]; simpl; [reflexivity | now rewrite IH]. Qed.

Lemma chars_remove_char (c : ascii) (s : string) :
  chars (remove_char c s) = filter (fun x => negb (Ascii.eqb x c)) (chars s).
Proof.
  induction s as [|x r IH]; simpl; [reflexivity|].
  destruct (Ascii.eqb x c); simpl; now rewrite IH.
Qed.

Lemma filter_filter_excluding (c : ascii) (cs : list ascii) (l : list ascii) :
  filter (fun x => negb (existsb (Ascii.eqb x) cs))
    (filter (fun x => negb (Ascii.eqb x c)) l)
  = filter (fun x => negb (existsb (Ascii.eqb x) (c :: cs))) l.
Proof.
  induction l as [|x r IH]; simpl; [reflexivity|].
  destruct (Ascii.eqb x c); simpl; [exact IH|].
  destruct (existsb (Ascii.eqb x) cs); simpl; now rewrite IH.
Qed.

(** The loop of [replace] calls removes the characters of the list and no
    other. *)
Lemma chars_remove_all (cs : list ascii) (s : string) :
  chars (fold_left (fun acc c => remove_char c acc) cs s)
  = filter (fun x => negb (existsb (Ascii.eqb x) cs)) (chars s).
Proof.
  revert s; induction cs as [|c cs IH]; intros s; simpl.
  - induction (chars s) as [|x r IHr]; simpl; [reflexivity | now rewrite <- IHr].
  - rewrite IH, chars_remove_char. apply filter_filter_excluding.
Qed.

Lemma stripped_char_dangerous (c : ascii) :
  existsb (Ascii.eqb c) dangerous_chars = stripped_char c.
Proof.
  unfold dangerous_chars, stripped_char; simpl.
  now rewrite orb_false_r, !orb_assoc.
Qed.

Lemma chars_lstrip (s : string) : chars (lstrip s) = ltrim (chars s).
Proof.
  unfold ltrim; induction s as [|c r IH]; simpl; [reflexivity|].
  destruct (is_space c); [exact IH | reflexivity].
Qed.

Lemma drop_while_snoc (p : ascii -> bool) (l : list ascii) (c : ascii) :
  drop_while p (l ++ [c])%list
  = match drop_while p l with
    | [] => if p c then [] else [c]
    | x :: r => (x :: r) ++ [c]
    end%list.
Proof.
  induction l as [|x r IH]; simpl; [reflexivity|].
  destruct (p x); [exact IH | reflexivity].
Qed.

Lemma rtrim_cons (c : ascii) (l : list ascii) :
  rtrim (c :: l)
  = match rtrim l with
    | [] => if is_space c then [] else [c]
    | x :: r => c :: x :: r
    end.
Proof.
  unfold rtrim; simpl. rewrite drop_while_snoc.
  destruct (drop_while is_space (rev l)) as [|x r] eqn:E; simpl.
  - now destruct (is_space c).
  - rewrite rev_app_distr; simpl.
    destruct (rev r ++ [x])%list as [|y t] eqn:E'; [|reflexivity].
    now destruct (rev r).
Qed.

Lemma chars_rstrip (s : string) : chars (rstrip s) = rtrim (chars s).
Proof.
  induction s as [|c r IH]; [reflexivity|].
  simpl chars at 2. rewrite rtrim_cons, <- IH. simpl.
  destruct (rstrip r); simpl; [destruct (is_space c)|]; reflexivity.
Qed.

Lemma chars_strip (s : string) : chars (strip s) = trim (chars s).
Proof. unfold strip, trim. now rewrite chars_rstrip, chars_lstrip. Qed.

(** The code's string sanitizer is the specification's. *)
Lemma sanitize_str_is_spec (s : string) : sanitize_str s = sanitize_str_spec s.
Proof.
  unfold sanitize_str, sanitize_str_spec.
  rewrite <- (of_chars_chars (strip _)), chars_strip, chars_remove_all.
  do 2 f_equal. apply filter_ext. intros c. now rewrite stripped_char_dangerous.
Qed.

(** ** What trimming does *)

Lemma drop_while_decompose (p : ascii -> bool) (l : list ascii) :
  exists pre, l = (pre ++ drop_while p l)%list /\ forallb p pre = true.
Proof.
  induction l as [|c r [pre [E F]]]; simpl.
  - now exists [].
  - destruct (p c) eqn:Pc.
    + exists (c :: pre); simpl. rewrite Pc, F. now rewrite <- E.
    + now exists [].
Qed.

Lemma drop_while_head (p : ascii -> bool) (l : list ascii) (c : ascii) :
  hd_error (drop_while p l) = Some c -> p c = false.
Proof.
  induction l as [|x r IH]; simpl; [discriminate|].
  destruct (p x) eqn:Px; [exact IH|]. simpl. now intros [= <-].
Qed.

Lemma forallb_rev (p : ascii -> bool) (l : list ascii) :
  forallb p (rev l) = forallb p l.
Proof.
  induction l as [|c r IH]; simpl; [reflexivity|].
  rewrite forallb_app, IH; simpl. now rewrite andb_true_r, andb_comm.
Qed.

(** Trimming takes whitespace, and only whitespace, off the two ends. *)
Lemma trim_decompose (l : list ascii) :
  exists pre suf,
    l = (pre ++ trim l ++ suf)%list
    /\ forallb is_space pre = true /\ forallb is_space suf = true.
Proof.
  destruct (drop_while_decompose is_space l) as [pre [E F]].
  destruct (drop_while_decompose is_space (rev (ltrim l))) as [suf [E' F']].
  exists pre, (rev suf). repeat split.
  - rewrite E at 1. f_equal. unfold trim, rtrim.
    rewrite <- rev_app_distr. fold (ltrim l) in *. rewrite <- E'.
    now rewrite rev_involutive.
  - exact F.
  - now rewrite forallb_rev.
Qed.

(** What is left starts with no whitespace. *)
Lemma trim_head (l : list ascii) (c : ascii) :
  hd_error (trim l) = Some c -> is_space c = false.
Proof.
  unfold trim. destruct (ltrim l) as [|x r] eqn:E; [discriminate|].
  assert (X : is_space x = false)
    by (apply (drop_while_head is_space l); unfold ltrim in E; now rewrite E).
  rewrite rtrim_cons, X.
  destruct (rtrim r); simpl; now intros [= <-].
Qed.

(** What is left ends with no whitespace. *)
Lemma trim_last (l : list ascii) (c : ascii) :
  hd_error (rev (trim l)) = Some c -> is_space c = false.
Proof.
  unfold trim, rtrim. rewrite rev_involutive. apply drop_while_head.
Qed.

Lemma Forall_drop_while (P : ascii -> Prop) (p : ascii -> bool) (l : list ascii) :
  Forall P l -> Forall P (drop_while p l).
Proof.
  induction 1 as [|c r Pc Pr IH]; simpl; [constructor|].
  destruct (p c); [exact IH | now constructor].
Qed.

Lemma Forall_trim (P : ascii -> Prop) (l : list ascii) :
  Forall P l -> Forall P (trim l).
Proof.
  intros H. unfold trim, rtrim, ltrim.
  apply Forall_rev, Forall_drop_while, Forall_rev, Forall_drop_while, H.
Qed.

Lemma filter_all (f : ascii -> bool) (l : list ascii) :
  Forall (fun c => f c = true) l -> filter f l = l.
Proof.
  induction 1 as [|c r Fc Fr IH]; simpl; [reflexivity|].
  now rewrite Fc, IH.
Qed.

Lemma Forall_filter (f : ascii -> bool) (l : list ascii) :
  Forall (fun c => f c = true) (filter f l).
Proof.
  apply Forall_forall. intros c Hc. now apply filter_In in Hc.
Qed.

Lemma drop_while_idem (p : ascii -> bool) (l : list ascii) :
  drop_while p (drop_while p l) = drop_while p l.
Proof.
  induction l as [|c r IH]; simpl; [reflexivity|].
  destruct (p c) eqn:Pc; [exact IH|]. simpl. now rewrite Pc.
Qed.

Lemma trim_idem (l : list ascii) : trim (trim l) = trim l.
Proof.
  unfold trim at 1.
  assert (L : ltrim (trim l) = trim l).
  { destruct (trim l) as [|c r] eqn:E; [reflexivity|].
    unfold ltrim; simpl. now rewrite (trim_head l (c:=c)) by now rewrite E. }
  rewrite L. unfold trim, rtrim.
  now rewrite rev_involutive, drop_while_idem.
Qed.

Lemma sanitize_str_spec_idem (s : string) :
  sanitize_str_spec (sanitize_str_spec s) = sanitize_str_spec s.
Proof.
  unfold sanitize_str_spec. rewrite chars_of_chars.
  rewrite filter_all by apply Forall_trim, Forall_filter.
  now rewrite trim_idem.
Qed.

Lemma sanitize_str_idem (s : string) :
  sanitize_str (sanitize_str s) = sanitize_str s.
Proof. rewrite !sanitize_str_is_spec. apply sanitize_str_spec_idem. Qed.

(** ** Properties of [sanitize_input] *)

Lemma sanitize_input_dict (d : dict) :
  sanitize_input (VDict d) = VDict (sanitize_items d).
Proof.
  simpl. f_equal. unfold sanitize_items.
  induction d as [|[k v] r IH]; simpl; [reflexivity | now rewrite IH].
Qed.

Lemma sanitize_input_list (l : list value) :
  sanitize_input (VList l) = VList (map sanitize_input l).
Proof. reflexivity. Qed.

(** C3. On every value, [sanitize_input] is the specification's sanitizer:
    from each string value, at any depth of lists and dicts, exactly the
    characters [<], [>], the double quote, ['], [&] and [;] are removed and
    the whitespace at both ends trimmed; every other character, the keys
    of dicts, the order of lists and dicts and all non-string values are
    kept. *)
Theorem sanitize_input_meets_spec (v : value) :
  sanitize_input v = sanitize_spec v.
Proof.
  induction v as [| b | n | s | l IH | d IH] using value_deep_ind;
    try reflexivity.
  - simpl. now rewrite sanitize_str_is_spec.
  - rewrite sanitize_input_list. simpl. f_equal.
    induction IH as [|x r Hx Hr IHr]; simpl; [reflexivity|].
    now rewrite Hx, IHr.
  - rewrite sanitize_input_dict. simpl. f_equal. unfold sanitize_items.
    induction IH as [|[k x] r Hx Hr IHr]; simpl; [reflexivity|].
    simpl in Hx. now rewrite Hx, IHr.
Qed.

(** C4. Sanitizing twice is sanitizing once, on every value: strings,
    lists, dicts, however nested, and the values it leaves alone. *)
Theorem sanitize_input_idempotent (v : value) :
  sanitize_input (sanitize_input v) = sanitize_input v.
Proof.
  induction v as [| b | n | s | l IH | d IH] using value_deep_ind;
    try reflexivity.
  - simpl. now rewrite sanitize_str_idem.
  - rewrite !sanitize_input_list. f_equal. rewrite map_map.
    now apply map_ext_Forall.
  - rewrite !sanitize_input_dict. f_equal. unfold sanitize_items.
    rewrite map_map. apply map_ext_Forall.
    eapply Forall_impl; [|exact IH].
    intros [k x] Hx; simpl in *. now rewrite Hx.
Qed.

(** * Dispatch *)

(** ** Computations *)

Lemma append_empty_r (s : string) : s ++ EmptyString = s.
Proof. induction s as [|c r IH]; simpl; [reflexivity | now rewrite IH]. Qed.

Lemma calls_of_bind_ret {A B} (m : M A) (f : A -> B) :
  calls_of (x <- m ;; ret (f x)) = calls_of m.
Proof.
  destruct m as [cs [e|a]]; simpl; [reflexivity | apply app_nil_r].
Qed.

Lemma bind_ret_l {A B} (a : A) (f : A -> M B) : (x <- ret a ;; f x) = f a.
Proof. unfold bind, ret. now destruct (f a). Qed.

Lemma given_truthy (k : string) (params : dict) :
  given k params -> truthy (dict_get k params) = true.
Proof. intros [v [L T]]. unfold dict_get. now rewrite L. Qed.

Lemma absent_or_empty_falsy (k : string) (params : dict) :
  absent_or_empty k params -> truthy (dict_get k params) = false.
Proof. unfold dict_get. now intros [-> | ->]. Qed.

Section DispatchFacts.
Variable w : Env.

Lemma calls_of_send (self : ChangeDetectionClient) (method url : string)
    (json : option value) :
  calls_of (send w self method url json)
  = [mkCall method url (headers self) json 30].
Proof. reflexivity. Qed.

(** The handler of [handle_action] issues no call of its own. *)
Lemma calls_of_handle_action (action params : value) :
  calls_of (handle_action w action params)
  = calls_of (handle_action_body w action params).
Proof.
  unfold handle_action, try_except.
  destruct (handle_action_body w action params) as [cs [[m s d|ty tx]|r]];
    simpl; try apply app_nil_r; reflexivity.
Qed.

(** Neither does the handler of [call_tool]. *)
Lemma calls_of_call_tool (name : string) (arguments : value) :
  calls_of (call_tool w name arguments)
  = calls_of (call_tool_body w name arguments).
Proof.
  unfold call_tool, try_except.
  destruct (call_tool_body w name arguments) as [cs [e|r]];
    simpl; try apply app_nil_r; reflexivity.
Qed.

Lemma with_watch_id_given (params : dict) (op : value -> M value) :
  truthy (dict_get "watch_id" params) = true ->
  with_watch_id (VDict params) op
  = (result <- op (dict_get "watch_id" params) ;; ret (success result)).
Proof.
  intros T. unfold with_watch_id, py_get, ret at 1, bind at 1.
  rewrite T; simpl.
  now destruct (bind _ _).
Qed.

Lemma tool_with_watch_id_given (arguments : dict) (op : value -> M value) :
  truthy (dict_get "watch_id" arguments) = true ->
  tool_with_watch_id w (VDict arguments) op
  = (result <- op (dict_get "watch_id" arguments) ;;
     ret (text_reply (py_str w result))).
Proof.
  intros T. unfold tool_with_watch_id, py_get, ret at 1, bind at 1.
  rewrite T; simpl.
  now destruct (bind _ _).
Qed.
End DispatchFacts.

(** ** Properties of dispatch *)

(** Selecting the branch of the two dispatchers for a literal name. *)
Ltac pick_branch :=
  unfold handle_action_body, call_tool_body;
  cbn [eq_str String.eqb Ascii.eqb Bool.eqb].

Ltac table_cases H :=
  simpl in H;
  repeat (destruct H as [H | H]; [injection H as <- <- |]);
  [.. | contradiction H].

(** C1. For each of the seven actions of the table, dispatched with every
    required parameter given, [handle_action] (and [call_tool] alike)
    issues exactly one outbound call; its method is the table's and its URL
    is the client's base URL followed by the table's path with the
    parameters of [params] put in. *)
Theorem dispatch_issues_the_table_call (w : Env) (action : string)
    (desc : descriptor) (params : dict) :
  In (action, desc) action_table ->
  (forall k, In k (d_required desc) -> given k params) ->
  (exists c,
      calls_of (handle_action w (VStr action) (VDict params)) = [c]
      /\ call_method c = d_method desc
      /\ call_url c
         = base_url (client w) ++ substitute w (d_path desc) params)
  /\ (exists c,
      calls_of (call_tool w action (VDict params)) = [c]
      /\ call_method c = d_method desc
      /\ call_url c
         = base_url (client w) ++ substitute w (d_path desc) params).
Proof.
  intros Hin Hreq.
  rewrite calls_of_handle_action, calls_of_call_tool.
  table_cases Hin; cbn [d_required d_method d_path substitute] in *;
    rewrite ?append_empty_r; pick_branch;
    try (assert (T := given_truthy (Hreq "watch_id" (or_introl eq_refl)));
         rewrite (with_watch_id_given _ _ T),
           (tool_with_watch_id_given w _ _ T));
    try (assert (T := given_truthy (Hreq "url" (or_introl eq_refl)));
         cbn [py_get]; rewrite !bind_ret_l, T; cbn [negb]);
    rewrite 2 calls_of_bind_ret;
    split; eexists; (split; [reflexivity | split; reflexivity]).
Qed.

Section MissingParameter.
Variable w : Env.

Lemma with_watch_id_missing (params : dict) (op : value -> M value) :
  truthy (dict_get "watch_id" params) = false ->
  with_watch_id (VDict params) op
  = raise (serverless_error "watch_id is required" 400 None).
Proof.
  intros T. unfold with_watch_id, py_get, ret at 1, bind at 1.
  now rewrite T.
Qed.

Lemma tool_with_watch_id_missing (arguments : dict) (op : value -> M value) :
  truthy (dict_get "watch_id" arguments) = false ->
  tool_with_watch_id w (VDict arguments) op
  = ret (text_reply "Error: watch_id is required").
Proof.
  intros T. unfold tool_with_watch_id, py_get, ret at 1, bind at 1.
  now rewrite T.
Qed.

Lemma create_watch_missing (params : dict) :
  truthy (dict_get "url" params) = false ->
  handle_action_body w (VStr "create_watch") (VDict params)
  = raise (serverless_error "url is required" 400 None).
Proof.
  intros T. unfold handle_action_body; cbn [eq_str String.eqb Ascii.eqb Bool.eqb].
  unfold py_get, ret at 1 2, bind at 1 2. now rewrite T.
Qed.

Lemma tool_create_watch_missing (arguments : dict) :
  truthy (dict_get "url" arguments) = false ->
  call_tool_body w "create_watch" (VDict arguments)
  = ret (text_reply "Error: url is required").
Proof.
  intros T. unfold call_tool_body; cbn [String.eqb Ascii.eqb Bool.eqb].
  unfold py_get, ret at 1 2, bind at 1 2. now rewrite T.
Qed.
End MissingParameter.

Ltac one_field H := simpl in H; destruct H as [<- | []].

(** A required parameter with a falsy value stops [handle_action] before
    the client is used. *)
Lemma handle_action_missing (w : Env) (action : string) (desc : descriptor)
    (field : string) (params : dict) :
  In (action, desc) action_table ->
  In field (d_required desc) ->
  truthy (dict_get field params) = false ->
  handle_action w (VStr action) (VDict params)
  = raise (ServerlessError (field ++ " is required") 400 []).
Proof.
  intros Hin Hf Hm. unfold handle_action.
  table_cases Hin; cbn [d_required] in Hf; try contradiction Hf; one_field Hf.
  - change (handle_action_body w (VStr "get_watch") (VDict params))
      with (with_watch_id (VDict params) (get_watch w (client w))).
    now rewrite with_watch_id_missing.
  - now rewrite create_watch_missing.
  - change (handle_action_body w (VStr "delete_watch") (VDict params))
      with (with_watch_id (VDict params) (delete_watch w (client w))).
    now rewrite with_watch_id_missing.
  - change (handle_action_body w (VStr "trigger_check") (VDict params))
      with (with_watch_id (VDict params) (trigger_check w (client w))).
    now rewrite with_watch_id_missing.
  - change (handle_action_body w (VStr "get_history") (VDict params))
      with (with_watch_id (VDict params) (get_history w (client w))).
    now rewrite with_watch_id_missing.
Qed.

(** The same for [call_tool], which answers with a text. *)
Lemma call_tool_missing (w : Env) (action : string) (desc : descriptor)
    (field : string) (arguments : dict) :
  In (action, desc) action_table ->
  In field (d_required desc) ->
  truthy (dict_get field arguments) = false ->
  call_tool w action (VDict arguments)
  = ret (text_reply ("Error: " ++ field ++ " is required")).
Proof.
  intros Hin Hf Hm. unfold call_tool.
  table_cases Hin; cbn [d_required] in Hf; try contradiction Hf; one_field Hf.
  - change (call_tool_body w "get_watch" (VDict arguments))
      with (tool_with_watch_id w (VDict arguments) (get_watch w (client w))).
    now rewrite tool_with_watch_id_missing.
  - now rewrite tool_create_watch_missing.
  - change (call_tool_body w "delete_watch" (VDict arguments))
      with (tool_with_watch_id w (VDict arguments) (delete_watch w (client w))).
    now rewrite tool_with_watch_id_missing.
  - change (call_tool_body w "trigger_check" (VDict arguments))
      with (tool_with_watch_id w (VDict arguments) (trigger_check w (client w))).
    now rewrite tool_with_watch_id_missing.
  - change (call_tool_body w "get_history" (VDict arguments))
      with (tool_with_watch_id w (VDict arguments) (get_history w (client w))).
    now rewrite tool_with_watch_id_missing.
Qed.

(** C5. For every action of the table that requires [watch_id] or [url]:
    when that parameter is absent from the params mapping or is the empty
    string, [handle_action] raises the [ServerlessError] "<field> is
    required" with status 400 and [call_tool] replies "Error: <field> is
    required", and neither issues an outbound call.  In particular
    [create_watch] with an empty mapping fails on [url] with no call. *)
Theorem missing_parameter_fails_before_any_call (w : Env) :
  (forall action desc field params,
      In (action, desc) action_table ->
      In field (d_required desc) ->
      absent_or_empty field params ->
      handle_action w (VStr action) (VDict params)
      = ([], inl (ServerlessError (field ++ " is required") 400 []))
      /\ call_tool w action (VDict params)
         = ([], inr (text_reply ("Error: " ++ field ++ " is required"))))
  /\ handle_action w (VStr "create_watch") (VDict [])
     = ([], inl (ServerlessError "url is required" 400 []))
  /\ call_tool w "create_watch" (VDict [])
     = ([], inr (text_reply "Error: url is required")).
Proof.
  split; [|split; reflexivity].
  intros action desc field params Hin Hf Hm.
  apply absent_or_empty_falsy in Hm. split.
  - eapply handle_action_missing; eassumption.
  - eapply call_tool_missing; eassumption.
Qed.

Lemma given_iff_truthy (k : string) (params : dict) :
  given k params <-> truthy (dict_get k params) = true.
Proof.
  split; [apply given_truthy|].
  unfold given, dict_get. destruct (lookup k params) as [v|]; [|discriminate].
  intros T. now exists v.
Qed.

Lemma create_watch_call (w : Env) (self : ChangeDetectionClient) (url tag : value) :
  calls_of (create_watch w self url tag)
  = [mkCall "POST" (base_url self ++ "/api/v1/watch") (headers self)
       (Some (VDict (if truthy tag then [("url", url); ("tag", tag)]
                     else [("url", url)]))) 30].
Proof. unfold create_watch. now destruct (truthy tag). Qed.

Lemma create_watch_body_shape (params : dict) :
  given "url" params ->
  url_and_optional_tag params
    (if truthy (dict_get "tag" params)
     then [("url", dict_get "url" params); ("tag", dict_get "tag" params)]
     else [("url", dict_get "url" params)]).
Proof.
  intros [u [Lu Tu]].
  assert (Eu : dict_get "url" params = u) by (unfold dict_get; now rewrite Lu).
  rewrite Eu.
  destruct (truthy (dict_get "tag" params)) eqn:Tt.
  - destruct (proj2 (given_iff_truthy "tag" params) Tt) as [t [Lt _]].
    assert (Et : dict_get "tag" params = t) by (unfold dict_get; now rewrite Lt).
    rewrite Et. repeat split.
    + now rewrite Lu.
    + intros _. now rewrite Lt.
    + intros N. exfalso. apply N. now apply given_iff_truthy.
    + intros k Ku Kt. simpl.
      apply String.eqb_neq in Ku, Kt. now rewrite Ku, Kt.
  - repeat split.
    + now rewrite Lu.
    + intros G. apply given_iff_truthy in G. congruence.
    + intros k Ku Kt. simpl. apply String.eqb_neq in Ku. now rewrite Ku.
Qed.

(** C7. Dispatching [create_watch] with a [url] given, through
    [handle_action] or [call_tool], sends one POST whose JSON body is a
    dict that has [url] with the given value, has [tag] with the given
    value exactly when a tag is given in the params (present and
    non-empty), and has no other field. *)
Theorem create_watch_sends_url_and_optional_tag (w : Env) (params : dict) :
  given "url" params ->
  (exists c body,
      calls_of (handle_action w (VStr "create_watch") (VDict params)) = [c]
      /\ call_method c = "POST"
      /\ call_json c = Some (VDict body)
      /\ url_and_optional_tag params body)
  /\ (exists c body,
      calls_of (call_tool w "create_watch" (VDict params)) = [c]
      /\ call_method c = "POST"
      /\ call_json c = Some (VDict body)
      /\ url_and_optional_tag params body).
Proof.
  intros G. assert (T := given_truthy G).
  rewrite calls_of_handle_action, calls_of_call_tool.
  assert (H : calls_of (handle_action_body w (VStr "create_watch") (VDict params))
              = calls_of (create_watch w (client w)
                            (dict_get "url" params) (dict_get "tag" params))).
  { unfold handle_action_body; cbn [eq_str String.eqb Ascii.eqb Bool.eqb py_get].
    rewrite !bind_ret_l, T. cbn [negb].
    apply calls_of_bind_ret. }
  assert (H' : calls_of (call_tool_body w "create_watch" (VDict params))
               = calls_of (create_watch w (client w)
                             (dict_get "url" params) (dict_get "tag" params))).
  { unfold call_tool_body; cbn [String.eqb Ascii.eqb Bool.eqb py_get].
    rewrite !bind_ret_l, T. cbn [negb].
    apply (calls_of_bind_ret _ (fun r => text_reply (py_str w r))). }
  rewrite H, H', create_watch_call.
  split; do 2 eexists; (split; [reflexivity|]); (split; [reflexivity|]);
    (split; [reflexivity|]); now apply create_watch_body_shape.
Qed.

(** * The HTTP front end, request by request *)

(** ** Computations that issue no call *)

Lemma pure_ret {A} (a : A) : pure (ret a).
Proof. reflexivity. Qed.

Lemma pure_raise {A} (e : exn) : pure (raise (A := A) e).
Proof. reflexivity. Qed.

Lemma pure_bind {A B} (m : M A) (f : A -> M B) :
  pure m -> (forall a, pure (f a)) -> pure (x <- m ;; f x).
Proof.
  unfold pure, calls_of, bind. destruct m as [cs [e|a]]; simpl; intros -> H.
  - reflexivity.
  - specialize (H a). destruct (f a) as [cs' r]. exact H.
Qed.

Lemma pure_cases {A} (m : M A) :
  pure m -> (exists e, m = raise e) \/ (exists a, m = ret a).
Proof.
  unfold pure, calls_of. destruct m as [cs [e|a]]; simpl; intros ->.
  - left. now exists e.
  - right. now exists a.
Qed.

Lemma bind_raise_l {A B} (e : exn) (f : A -> M B) :
  (x <- raise e ;; f x) = raise e.
Proof. reflexivity. Qed.

Lemma try_except_raise {A} (e : exn) (h : exn -> M A) :
  try_except (raise e) h = h e.
Proof. unfold try_except, raise. now destruct (h e). Qed.

Lemma try_except_ret {A} (a : A) (h : exn -> M A) :
  try_except (ret a) h = ret a.
Proof. reflexivity. Qed.

Create HintDb pure_db.
#[local] Hint Resolve pure_ret pure_raise : pure_db.

Lemma py_contains_pure (obj : value) (k : string) : pure (py_contains obj k).
Proof. destruct obj; reflexivity. Qed.

Lemma py_getitem_pure (obj : value) (k : string) : pure (py_getitem obj k).
Proof. destruct obj; try reflexivity. simpl. now destruct (lookup k entries). Qed.

Lemma py_get_default_pure (obj : value) (k : string) (default : value) :
  pure (py_get_default obj k default).
Proof. destruct obj; reflexivity. Qed.

Lemma parse_body_pure (w : Env) (body_str : value) : pure (parse_body w body_str).
Proof.
  destruct body_str; try reflexivity. simpl. now destruct (json_loads w s).
Qed.

Lemma logged_params_pure (params : value) : pure (logged_params params).
Proof.
  unfold logged_params. destruct (truthy params); [|reflexivity].
  destruct params; reflexivity.
Qed.

Lemma check_required_pure (fields : list string) (body : value) :
  pure (check_required fields body).
Proof.
  induction fields as [|f r IH]; simpl; [reflexivity|].
  apply pure_bind; [apply py_contains_pure|].
  intros present. now destruct present.
Qed.

#[local] Hint Resolve py_contains_pure py_getitem_pure py_get_default_pure
  parse_body_pure logged_params_pure check_required_pure : pure_db.

Lemma validate_request_pure (w : Env) (body : value) :
  pure (validate_request w body).
Proof.
  unfold validate_request.
  repeat (apply pure_bind; [auto with pure_db | intros ?]).
  destruct (negb _); auto with pure_db.
Qed.

(** ** The stages of [async_handler] *)

Lemma calls_of_respond (w : Env) (m : M dict) :
  calls_of (respond w m) = calls_of m.
Proof.
  unfold respond, try_except, bind.
  destruct m as [cs [e|a]]; simpl; now rewrite app_nil_r.
Qed.

Lemma respond_raise (w : Env) (cs : list Call) (e : exn) :
  respond w (cs, inl e) = (cs, inr (error_response w e)).
Proof. unfold respond; simpl. now rewrite app_nil_r. Qed.

Lemma respond_ret (w : Env) (cs : list Call) (result : dict) :
  respond w (cs, inr result) = (cs, inr (create_response w 200 result None)).
Proof. unfold respond; simpl. now rewrite app_nil_r. Qed.

(** A request is answered before dispatch, with no call issued, or it is
    answered from the outcome of one [handle_action]. *)
Lemma async_handler_cases (w : Env) (event : dict) :
  (exists r, async_handler w event = ret r)
  \/ (exists body action params,
        is_preflight event = false
        /\ request_body w event = ret body
        /\ py_getitem body "action" = ret action
        /\ py_get_default body "params" (VDict []) = ret params
        /\ async_handler w event
           = respond w (handle_action w (sanitize_input action)
                          (sanitize_input params))).
Proof.
  unfold async_handler, async_handler_body.
  fold (is_preflight event). fold (request_body w event).
  destruct (is_preflight event) eqn:P; [left; eexists; reflexivity|].
  destruct (pure_cases (parse_body_pure w (dict_get_default "body" (VStr "{}") event)))
    as [[e E] | [body E]]; unfold request_body; rewrite E.
  { left. rewrite bind_raise_l, try_except_raise. eexists; reflexivity. }
  rewrite bind_ret_l.
  destruct (pure_cases (validate_request_pure w body)) as [[e V] | [u V]]; rewrite V.
  { left. rewrite bind_raise_l, try_except_raise. eexists; reflexivity. }
  rewrite bind_ret_l.
  destruct (pure_cases (py_getitem_pure body "action")) as [[e A] | [action A]];
    rewrite A.
  { left. rewrite bind_raise_l, try_except_raise. eexists; reflexivity. }
  rewrite bind_ret_l.
  destruct (pure_cases (py_get_default_pure body "params" (VDict [])))
    as [[e G] | [params G]]; rewrite G.
  { left. rewrite bind_raise_l, try_except_raise. eexists; reflexivity. }
  rewrite bind_ret_l.
  destruct (pure_cases (logged_params_pure (sanitize_input params)))
    as [[e L] | [l L]]; rewrite L.
  { left. rewrite bind_raise_l, try_except_raise. eexists; reflexivity. }
  rewrite bind_ret_l.
  right. exists body, action, params. repeat split; auto.
Qed.

Section Validation.
Variable w : Env.

Lemma validate_request_missing (body : dict) :
  lookup "action" body = None ->
  validate_request w (VDict body)
  = raise (ServerlessError "Missing required field: action" 400
             [("required_fields", VList [VStr "action"])]).
Proof.
  intros L. unfold validate_request.
  cbn [check_required required_fields py_contains]. now rewrite L.
Qed.

Lemma validate_request_ok (body : dict) (action : value) :
  lookup "action" body = Some action ->
  existsb (eq_str action) valid_actions = true ->
  validate_request w (VDict body) = ret tt.
Proof.
  intros L V. unfold validate_request.
  cbn [check_required required_fields py_contains py_getitem]. rewrite L.
  rewrite !bind_ret_l. cbn [negb]. now rewrite bind_ret_l, V.
Qed.

(** A valid action name is a string that sanitization leaves as it is. *)
Lemma valid_action_sanitized (action : value) :
  existsb (eq_str action) valid_actions = true ->
  sanitize_input action = action.
Proof.
  destruct action as [| | |s| |]; try discriminate. simpl.
  rewrite !orb_true_iff, !String.eqb_eq.
  intros [H|[H|[H|[H|[H|[H|[H|[H|H]]]]]]]]; try discriminate H;
    subst s; reflexivity.
Qed.

Lemma logged_params_dict (params : dict) :
  exists l, logged_params (VDict params) = ret l.
Proof.
  unfold logged_params. destruct (truthy (VDict params)); eexists; reflexivity.
Qed.

(** A request that passes validation, with a mapping for params, is
    answered from the outcome of [handle_action] on the sanitized
    params. *)
Lemma async_handler_dispatch (event body : dict) (action : value)
    (params : dict) :
  is_preflight event = false ->
  request_body w event = ret (VDict body) ->
  lookup "action" body = Some action ->
  existsb (eq_str action) valid_actions = true ->
  dict_get_default "params" (VDict []) body = VDict params ->
  async_handler w event
  = respond w (handle_action w action (VDict (sanitize_items params))).
Proof.
  intros P E L V G.
  unfold async_handler, async_handler_body.
  fold (is_preflight event). fold (request_body w event).
  rewrite P, E, bind_ret_l, (validate_request_ok _ L V), bind_ret_l.
  cbn [py_getitem py_get_default]. rewrite L, bind_ret_l, bind_ret_l, G.
  rewrite (valid_action_sanitized _ V), sanitize_input_dict.
  destruct (logged_params_dict (sanitize_items params)) as [l ->].
  now rewrite bind_ret_l.
Qed.
End Validation.

(** C8, as the code has it.  Every request that is not a CORS preflight
    and whose parsed body is a JSON object without the key [action] is
    answered with status 400, no outbound call, and
    [details.required_fields] is a list that contains "action". *)
Theorem missing_action_is_a_400 (w : Env) (event body : dict) :
  is_preflight event = false ->
  request_body w event = ret (VDict body) ->
  lookup "action" body = None ->
  exists r fields,
    async_handler w event = ([], inr r)
    /\ statusCode r = 400%Z
    /\ value_at ["success"] (VDict (resp_body r)) = Some (VBool false)
    /\ value_at ["details"; "required_fields"] (VDict (resp_body r))
       = Some (VList fields)
    /\ In (VStr "action") fields.
Proof.
  intros P E L.
  unfold async_handler, async_handler_body.
  fold (is_preflight event). fold (request_body w event).
  rewrite P, E, bind_ret_l, (validate_request_missing w _ L).
  rewrite bind_raise_l, try_except_raise.
  eexists; exists [VStr "action"].
  split; [reflexivity|]. repeat split. now left.
Qed.

(** C8, as stated, fails.  A POST whose body is the JSON text [null] has a
    parsed body without any [action] field; [validate_request] takes a
    dict, its membership test raises [TypeError] on [None], and the answer
    is the status 500 of the catch-all clause, with no [details]. *)
Lemma null_body_is_a_500 :
  is_preflight [("httpMethod", VStr "POST"); ("body", VStr "null")] = false
  /\ request_body env_remote_up
       [("httpMethod", VStr "POST"); ("body", VStr "null")] = ret VNull
  /\ exists r,
      async_handler env_remote_up
        [("httpMethod", VStr "POST"); ("body", VStr "null")] = ([], inr r)
      /\ statusCode r = 500%Z
      /\ value_at ["details"] (VDict (resp_body r)) = None.
Proof.
  split; [reflexivity|]. split; [reflexivity|].
  eexists. split; [reflexivity|]. split; reflexivity.
Qed.

(** ** A remote call that fails *)

Section RemoteFailure.
Variable w : Env.

Lemma send_outcome_on_failure (self : ChangeDetectionClient)
    (method url : string) (json : option value) (ty text : string) :
  transport w (mkCall method url (headers self) json 30) = inl (ty, text) ->
  send w self method url json
  = ([mkCall method url (headers self) json 30], inl (PyError ty text)).
Proof. intros H. unfold send, settle. now rewrite H. Qed.

(** A client operation followed by the wrapping of its result. *)
Lemma dispatched_failure {B} (op : M value) (f : value -> B)
    (c : Call) (ty text : string) :
  (exists self method url json, op = send w self method url json) ->
  calls_of (result <- op ;; ret (f result)) = [c] ->
  transport w c = inl (ty, text) ->
  (result <- op ;; ret (f result)) = ([c], inl (PyError ty text)).
Proof.
  intros [self [method [url [json ->]]]].
  rewrite calls_of_bind_ret, calls_of_send. intros [= <-] T.
  now rewrite (send_outcome_on_failure _ _ _ _ T).
Qed.

Lemma with_watch_id_failure (params : value) (op : value -> M value)
    (c : Call) (ty text : string) :
  (forall v, exists self method url json, op v = send w self method url json) ->
  calls_of (with_watch_id params op) = [c] ->
  transport w c = inl (ty, text) ->
  with_watch_id params op = ([c], inl (PyError ty text)).
Proof.
  intros Hop. unfold with_watch_id.
  destruct params; try (intros H; discriminate H).
  cbn [py_get]. rewrite bind_ret_l.
  destruct (truthy (dict_get "watch_id" entries)); cbn [negb];
    [|intros H; discriminate H].
  apply dispatched_failure, Hop.
Qed.

(** Whatever the action and the params, when the one call that
    [handle_action] issued fails, the exception of the transport leaves
    its [try] block. *)
Lemma handle_action_body_failure (action params : value)
    (c : Call) (ty text : string) :
  calls_of (handle_action_body w action params) = [c] ->
  transport w c = inl (ty, text) ->
  handle_action_body w action params = ([c], inl (PyError ty text)).
Proof.
  unfold handle_action_body.
  repeat match goal with
         | |- context [if eq_str action ?s then _ else _] =>
             destruct (eq_str action s)
         end;
    try (intros H; discriminate H);
    try (apply with_watch_id_failure; intros v; do 4 eexists; reflexivity);
    try (apply dispatched_failure; do 4 eexists; reflexivity).
  destruct params; try (intros H; discriminate H).
  cbn [py_get]. rewrite !bind_ret_l.
  destruct (truthy (dict_get "url" entries)); cbn [negb]; [|intros H; discriminate H].
  apply dispatched_failure. do 4 eexists. reflexivity.
Qed.

Lemma handle_action_failure (action params : value)
    (c : Call) (ty text : string) :
  calls_of (handle_action w action params) = [c] ->
  transport w c = inl (ty, text) ->
  handle_action w action params
  = ([c], inl (ServerlessError ("Internal server error: " ++ text) 500
                 [("action", action); ("error_type", VStr ty)])).
Proof.
  rewrite calls_of_handle_action. intros C T. unfold handle_action.
  now rewrite (handle_action_body_failure _ _ C T).
Qed.
End RemoteFailure.

(** ** Properties of the answers *)

Lemma prefix_refl (s : string) : String.prefix s s = true.
Proof. induction s as [|c r IH]; simpl; [reflexivity|]. now destruct (ascii_dec c c). Qed.

Lemma contains_after (p q : string) : contains p (q ++ p) = true.
Proof.
  induction q as [|c r IH]; simpl.
  - destruct p; simpl; [reflexivity|]. rewrite prefix_refl.
    now destruct (ascii_dec a a).
  - rewrite IH. apply orb_true_r.
Qed.

(** What [py_getitem] returns is an entry of a dict. *)
Lemma py_getitem_ret (obj : value) (k : string) (v : value) :
  py_getitem obj k = ret v -> exists d, obj = VDict d /\ lookup k d = Some v.
Proof.
  destruct obj; try discriminate. simpl.
  destruct (lookup k entries) as [x|] eqn:L; [|discriminate].
  intros [= <-]. now exists entries.
Qed.

(** What [validate_request] lets through has one of the eight actions. *)
Lemma validate_request_ret (w : Env) (body : dict) (action : value) (u : unit) :
  validate_request w (VDict body) = ret u ->
  lookup "action" body = Some action ->
  existsb (eq_str action) valid_actions = true.
Proof.
  intros V L. unfold validate_request in V.
  cbn [check_required required_fields py_contains py_getitem] in V.
  rewrite L in V. rewrite !bind_ret_l in V. cbn [negb] in V.
  rewrite bind_ret_l in V.
  destruct (existsb (eq_str action) valid_actions); [reflexivity|].
  discriminate V.
Qed.

(** A request that issued a call passed validation, and is answered from
    the outcome of [handle_action] on the action of its body. *)
Lemma async_handler_called (w : Env) (event : dict) (c : Call) :
  calls_of (async_handler w event) = [c] ->
  exists body action params,
    request_body w event = ret (VDict body)
    /\ lookup "action" body = Some action
    /\ async_handler w event
       = respond w (handle_action w action (sanitize_input params)).
Proof.
  unfold async_handler, async_handler_body.
  fold (request_body w event).
  destruct (eq_str (dict_get "httpMethod" event) "OPTIONS");
    [intros H; discriminate H|].
  destruct (pure_cases (parse_body_pure w (dict_get_default "body" (VStr "{}") event)))
    as [[e E] | [body E]]; unfold request_body; rewrite E;
    [rewrite bind_raise_l, try_except_raise; intros H; discriminate H|].
  rewrite bind_ret_l.
  destruct (pure_cases (validate_request_pure w body)) as [[e V] | [u V]];
    rewrite V;
    [rewrite bind_raise_l, try_except_raise; intros H; discriminate H|].
  rewrite bind_ret_l.
  destruct (pure_cases (py_getitem_pure body "action")) as [[e A] | [action A]];
    rewrite A;
    [rewrite bind_raise_l, try_except_raise; intros H; discriminate H|].
  rewrite bind_ret_l.
  destruct (py_getitem_ret _ _ A) as [d [-> L]].
  rewrite (valid_action_sanitized _ (validate_request_ret _ _ V L)).
  destruct (pure_cases (py_get_default_pure (VDict d) "params" (VDict [])))
    as [[e G] | [params G]]; rewrite G;
    [rewrite bind_raise_l, try_except_raise; intros H; discriminate H|].
  rewrite bind_ret_l.
  destruct (pure_cases (logged_params_pure (sanitize_input params)))
    as [[e Lg] | [l Lg]]; rewrite Lg;
    [rewrite bind_raise_l, try_except_raise; intros H; discriminate H|].
  rewrite bind_ret_l. intros _.
  now exists d, action, params.
Qed.

(** The answer to a request whose one call failed in the transport. *)
Lemma transport_failure_answer (w : Env) (event : dict)
    (c : Call) (ty text : string) :
  calls_of (async_handler w event) = [c] ->
  transport w c = inl (ty, text) ->
  exists body action,
    request_body w event = ret (VDict body)
    /\ lookup "action" body = Some action
    /\ async_handler w event
       = ([c], inr (classified_error_response w
                      ("Internal server error: " ++ text) 500
                      [("action", action); ("error_type", VStr ty)])).
Proof.
  intros C T.
  destruct (async_handler_called w event C)
    as [body [action [params [E [L H]]]]].
  exists body, action. split; [exact E|]. split; [exact L|].
  rewrite H in C |- *. rewrite calls_of_respond in C.
  now rewrite (handle_action_failure _ _ _ C T), respond_raise.
Qed.

(** [DEBUG] is read by the last [except] clause and nowhere else. *)
Lemma debug_changes_the_unexpected_only (w : Env) (debug : option string)
    (event : dict) :
  async_handler (with_debug w debug) event = async_handler w event
  \/ exists cs text,
      async_handler w event = (cs, inr (unexpected_error_response w text))
      /\ async_handler (with_debug w debug) event
         = (cs, inr (unexpected_error_response (with_debug w debug) text)).
Proof.
  unfold async_handler.
  change (async_handler_body (with_debug w debug) event)
    with (async_handler_body w event).
  destruct (async_handler_body w event) as [cs [[m code d | ty text] | r]].
  - left. reflexivity.
  - right. exists (cs ++ [])%list, text. split; reflexivity.
  - left. reflexivity.
Qed.

(** C2, as the code has it.  When the one call of a request fails in the
    transport (a timeout or any other [httpx] exception), the handler
    answers with status 500 and [success: false]; the [error] field is
    "Internal server error: " followed by the text of the exception, and
    [details] carries the action of the request body and the type of the
    exception.  The answer is the same whatever [DEBUG] is set to.  For any
    request, another setting of [DEBUG] changes the answer only when the
    answer is the one of the last [except] clause, to the exceptions that
    are not [ServerlessError]. *)
Theorem transport_failure_is_a_500_with_its_text (w : Env) :
  (forall event c ty text,
      calls_of (async_handler w event) = [c] ->
      transport w c = inl (ty, text) ->
      exists r body action,
        request_body w event = ret (VDict body)
        /\ lookup "action" body = Some action
        /\ async_handler w event = ([c], inr r)
        /\ statusCode r = 500%Z
        /\ value_at ["success"] (VDict (resp_body r)) = Some (VBool false)
        /\ value_at ["error"] (VDict (resp_body r))
           = Some (VStr ("Internal server error: " ++ text))
        /\ value_at ["details"] (VDict (resp_body r))
           = Some (VDict [("action", action); ("error_type", VStr ty)])
        /\ ~ omits_text text r
        /\ forall debug,
            async_handler (with_debug w debug) event = async_handler w event)
  /\ (forall event debug,
        async_handler (with_debug w debug) event = async_handler w event
        \/ exists cs text,
            async_handler w event
            = (cs, inr (unexpected_error_response w text))
            /\ async_handler (with_debug w debug) event
               = (cs, inr (unexpected_error_response
                             (with_debug w debug) text))).
Proof.
  split; [|intros event debug; apply debug_changes_the_unexpected_only].
  intros event c ty text C T.
  destruct (transport_failure_answer w event C T) as [body [action [E [L H]]]].
  eexists; exists body, action.
  split; [exact E|]. split; [exact L|]. split; [exact H|].
  repeat split.
  - intros O.
    specialize (O ("Internal server error: " ++ text) (or_introl eq_refl)).
    now rewrite contains_after in O.
  - intros debug.
    assert (C' : calls_of (async_handler (with_debug w debug) event) = [c]).
    { rewrite <- C. unfold async_handler, try_except.
      change (async_handler_body (with_debug w debug) event)
        with (async_handler_body w event).
      now destruct (async_handler_body w event) as [cs [e | r]]. }
    destruct (transport_failure_answer (with_debug w debug) event C' T)
      as [body' [action' [E' [L' H']]]].
    change (request_body (with_debug w debug) event)
      with (request_body w event) in E'.
    rewrite E in E'. injection E' as <-.
    rewrite L in L'. injection L' as <-.
    rewrite H, H'. reflexivity.
Qed.

(** C2, as stated, fails.  With [DEBUG] unset, a [get_watch] whose remote
    call times out is answered with status 500 and an [error] field that
    contains the text of the timeout exception. *)
Lemma timeout_text_reaches_the_caller :
  exists c r,
    async_handler env_remote_down
      (request "get_watch" [("watch_id", VStr "abc-123")]) = ([c], inr r)
    /\ transport env_remote_down c
       = inl ("ReadTimeout", "The read operation timed out")
    /\ debug_mode env_remote_down = false
    /\ statusCode r = 500%Z
    /\ value_at ["error"] (VDict (resp_body r))
       = Some (VStr "Internal server error: The read operation timed out")
    /\ ~ omits_text "The read operation timed out" r.
Proof.
  do 2 eexists. split; [reflexivity|]. repeat split.
  intros O.
  specialize (O "Internal server error: The read operation timed out"
                (or_introl eq_refl)).
  discriminate O.
Qed.

Lemma transport_failure_is_a_500_with_its_text_witness :
  calls_of (async_handler env_remote_down
              (request "delete_watch" [("watch_id", VStr "abc-123")]))
  = [mkCall "DELETE" "http://localhost:5000/api/v1/watch/abc-123"
       [("x-api-key", VStr "secret")] None 30]
  /\ exists r body action,
      request_body env_remote_down
        (request "delete_watch" [("watch_id", VStr "abc-123")])
      = ret (VDict body)
      /\ lookup "action" body = Some action
      /\ async_handler env_remote_down
           (request "delete_watch" [("watch_id", VStr "abc-123")])
         = ([mkCall "DELETE" "http://localhost:5000/api/v1/watch/abc-123"
               [("x-api-key", VStr "secret")] None 30], inr r)
      /\ statusCode r = 500%Z
      /\ value_at ["success"] (VDict (resp_body r)) = Some (VBool false)
      /\ value_at ["error"] (VDict (resp_body r))
         = Some (VStr ("Internal server error: " ++ "The read operation timed out"))
      /\ value_at ["details"] (VDict (resp_body r))
         = Some (VDict [("action", action); ("error_type", VStr "ReadTimeout")])
      /\ ~ omits_text "The read operation timed out" r
      /\ forall debug,
          async_handler (with_debug env_remote_down debug)
            (request "delete_watch" [("watch_id", VStr "abc-123")])
          = async_handler env_remote_down
              (request "delete_watch" [("watch_id", VStr "abc-123")]).
Proof.
  split; [reflexivity|].
  apply (proj1 (transport_failure_is_a_500_with_its_text env_remote_down)
           (request "delete_watch" [("watch_id", VStr "abc-123")]));
    reflexivity.
Defined.

Lemma truthy_str_iff (s : string) :
  truthy (VStr s) = true <-> s <> EmptyString.
Proof. destruct s; simpl; split; congruence. Qed.

(** A request that passes validation, with params that are a mapping or
    are falsy once sanitized, is answered from the outcome of
    [handle_action] on the sanitized params. *)
Lemma async_handler_dispatch_value (w : Env) (event body : dict)
    (action params : value) :
  is_preflight event = false ->
  request_body w event = ret (VDict body) ->
  lookup "action" body = Some action ->
  existsb (eq_str action) valid_actions = true ->
  dict_get_default "params" (VDict []) body = params ->
  truthy (sanitize_input params) = false \/ type_name params = "dict" ->
  async_handler w event
  = respond w (handle_action w action (sanitize_input params)).
Proof.
  intros P E L V G W.
  unfold async_handler, async_handler_body.
  fold (is_preflight event). fold (request_body w event).
  rewrite P, E, bind_ret_l, (validate_request_ok _ _ L V), bind_ret_l.
  cbn [py_getitem py_get_default]. rewrite L, bind_ret_l, bind_ret_l, G.
  rewrite (valid_action_sanitized _ V).
  assert (Lg : exists l, logged_params (sanitize_input params) = ret l).
  { destruct W as [F | D].
    - unfold logged_params. rewrite F. now eexists.
    - destruct params; try discriminate D.
      rewrite sanitize_input_dict. apply logged_params_dict. }
  destruct Lg as [l ->]. now rewrite bind_ret_l.
Qed.

(** C6, as the code has it.  [health_check] is answered locally.
    [handle_action] returns, for any params and with no outbound call, a
    result whose [data.api_key_configured] is [true] exactly when the
    configured API key is a non-empty string.  A request that is not a
    preflight and whose parsed body is a JSON object with action
    [health_check] issues no outbound call, whatever its params; when its
    params are left out, are a mapping, or are falsy once sanitized, it is
    answered with status 200 and that [data.api_key_configured]. *)
Theorem health_check_is_local (w : Env) :
  (forall params, exists result b,
      handle_action w (VStr "health_check") params = ([], inr result)
      /\ value_at ["data"; "api_key_configured"] (VDict result) = Some (VBool b)
      /\ (b = true <-> API_KEY w <> EmptyString))
  /\ (forall event body,
        is_preflight event = false ->
        request_body w event = ret (VDict body) ->
        lookup "action" body = Some (VStr "health_check") ->
        calls_of (async_handler w event) = []
        /\ (truthy (sanitize_input
                      (dict_get_default "params" (VDict []) body)) = false
            \/ type_name (dict_get_default "params" (VDict []) body) = "dict" ->
            exists r b,
              async_handler w event = ([], inr r)
              /\ statusCode r = 200%Z
              /\ value_at ["data"; "api_key_configured"] (VDict (resp_body r))
                 = Some (VBool b)
              /\ (b = true <-> API_KEY w <> EmptyString))).
Proof.
  split.
  - intros params. do 2 eexists. split; [reflexivity|].
    split; [reflexivity | apply truthy_str_iff].
  - intros event body P E L. split.
    + destruct (async_handler_cases w event)
        as [[r H] | [body' [action [params [_ [E' [A [_ H]]]]]]]];
        rewrite H; [reflexivity|].
      rewrite E in E'. injection E' as <-.
      cbn [py_getitem] in A. rewrite L in A. injection A as <-.
      now rewrite calls_of_respond.
    + intros W.
      rewrite (async_handler_dispatch_value w event P E L eq_refl eq_refl W).
      do 2 eexists. split; [reflexivity|]. split; [reflexivity|].
      split; [reflexivity | apply truthy_str_iff].
Qed.

(** C6, as stated, fails.  With an API key configured, a [health_check]
    whose params are the list [[1]] does not get to [handle_action]: the
    log record asks the params for [keys()], and the answer is the status
    500 of the last [except] clause, which has no [data]. *)
Lemma health_check_with_list_params_has_no_data :
  API_KEY env_remote_down <> EmptyString
  /\ exists r,
      async_handler env_remote_down
        (post [("action", VStr "health_check"); ("params", VList [VInt 1])])
      = ([], inr r)
      /\ statusCode r = 500%Z
      /\ value_at ["data"] (VDict (resp_body r)) = None
      /\ value_at ["data"; "api_key_configured"] (VDict (resp_body r)) = None.
Proof.
  split; [discriminate|].
  eexists. split; [reflexivity|]. repeat split.
Qed.

Lemma health_check_is_local_witness :
  is_preflight (request "health_check" []) = false
  /\ calls_of (async_handler env_remote_up (request "health_check" [])) = []
  /\ exists r b,
      async_handler env_remote_up (request "health_check" []) = ([], inr r)
      /\ statusCode r = 200%Z
      /\ value_at ["data"; "api_key_configured"] (VDict (resp_body r))
         = Some (VBool b)
      /\ (b = true <-> API_KEY env_remote_up <> EmptyString).
Proof.
  split; [reflexivity|].
  destruct (proj2 (health_check_is_local env_remote_up)
              (request "health_check" [])
              [("action", VStr "health_check"); ("params", VDict [])]
              eq_refl eq_refl eq_refl) as [C R].
  split; [exact C | exact (R (or_introl eq_refl))].
Defined.

Lemma table_action_valid (action : string) (desc : descriptor) :
  In (action, desc) action_table ->
  existsb (eq_str (VStr action)) valid_actions = true.
Proof. intros Hin. table_cases Hin; reflexivity. Qed.

Lemma lookup_sanitize_items (k : string) (d : dict) :
  lookup k (sanitize_items d) = option_map sanitize_input (lookup k d).
Proof.
  induction d as [|[k' v] r IH]; simpl; [reflexivity|].
  now destruct (k =? k').
Qed.

(** A string made of the six characters and of whitespace sanitizes to the
    empty string. *)
Lemma sanitize_str_noise (s : string) :
  forallb (fun c => stripped_char c || is_space c) (chars s) = true ->
  sanitize_str s = EmptyString.
Proof.
  intros H. rewrite sanitize_str_is_spec. unfold sanitize_str_spec.
  assert (E : ltrim (filter (fun c => negb (stripped_char c)) (chars s)) = []).
  { unfold ltrim. induction (chars s) as [|c r IH]; simpl in *; [reflexivity|].
    apply andb_true_iff in H as [Hc Hr].
    destruct (stripped_char c); simpl in *; [now apply IH|].
    rewrite Hc. now apply IH. }
  unfold trim. now rewrite E.
Qed.

(** C10.  In the HTTP front end, for an action of the table and a
    parameter it requires: a request whose params hold a string for it
    that sanitizes to the empty string gets the very answer of a request
    whose params do not hold it, which is the status 400 response
    "<field> is required", and no outbound call is issued. *)
Theorem emptied_parameter_counts_as_absent (w : Env) (event body : dict)
    (action : string) (desc : descriptor) (field : string) (params : dict) :
  is_preflight event = false ->
  request_body w event = ret (VDict body) ->
  lookup "action" body = Some (VStr action) ->
  In (action, desc) action_table ->
  In field (d_required desc) ->
  dict_get_default "params" (VDict []) body = VDict params ->
  lookup field params = None
  \/ (exists s, lookup field params = Some (VStr s)
                /\ sanitize_str s = EmptyString) ->
  async_handler w event = ([], inr (missing_parameter_response w field))
  /\ statusCode (missing_parameter_response w field) = 400%Z
  /\ value_at ["error"] (VDict (resp_body (missing_parameter_response w field)))
     = Some (VStr (field ++ " is required")).
Proof.
  intros P E L Hin Hf G Hm.
  split; [|split; reflexivity].
  rewrite (async_handler_dispatch w event P E L (table_action_valid Hin) G).
  assert (T : truthy (dict_get field (sanitize_items params)) = false).
  { unfold dict_get. rewrite lookup_sanitize_items.
    destruct Hm as [-> | [s [-> S]]]; simpl; [reflexivity | now rewrite S]. }
  rewrite (@handle_action_missing w _ _ _ _ Hin Hf T).
  unfold raise. now rewrite respond_raise.
Qed.

Lemma emptied_parameter_counts_as_absent_witness :
  sanitize_str " <>;&' " = EmptyString
  /\ async_handler env_remote_up
       (request "get_watch" [("watch_id", VStr " <>;&' ")])
     = async_handler env_remote_up (request "get_watch" [])
  /\ async_handler env_remote_up
       (request "get_watch" [("watch_id", VStr " <>;&' ")])
     = ([], inr (missing_parameter_response env_remote_up "watch_id")).
Proof.
  split; [reflexivity|].
  assert (A := @emptied_parameter_counts_as_absent env_remote_up
                 (request "get_watch" [("watch_id", VStr " <>;&' ")])
                 [("action", VStr "get_watch");
                  ("params", VDict [("watch_id", VStr " <>;&' ")])]
                 "get_watch"
                 (mkDescriptor "GET" [Lit "/api/v1/watch/"; Param "watch_id"]
                    ["watch_id"])
                 "watch_id" [("watch_id", VStr " <>;&' ")]
                 eq_refl eq_refl eq_refl
                 (or_intror (or_introl eq_refl)) (or_introl eq_refl) eq_refl
                 (or_intror (ex_intro _ " <>;&' " (conj eq_refl eq_refl)))).
  assert (B := @emptied_parameter_counts_as_absent env_remote_up
                 (request "get_watch" [])
                 [("action", VStr "get_watch"); ("params", VDict [])]
                 "get_watch"
                 (mkDescriptor "GET" [Lit "/api/v1/watch/"; Param "watch_id"]
                    ["watch_id"])
                 "watch_id" []
                 eq_refl eq_refl eq_refl
                 (or_intror (or_introl eq_refl)) (or_introl eq_refl) eq_refl
                 (or_introl eq_refl)).
  destruct A as [A _]. destruct B as [B _].
  split; [now rewrite A, B | exact A].
Defined.

(** * The tool front end *)

Section ToolReplies.
Variable w : Env.

Lemma tool_called (op : M value) :
  (exists self method url json, op = send w self method url json) ->
  tool_outcome w (result <- op ;; ret (text_reply (py_str w result))).
Proof.
  intros [self [method [url [json ->]]]].
  apply Called with (c := mkCall method url (headers self) json 30).
  unfold send, bind. now destruct (settle w _).
Qed.

Lemma tool_with_watch_id_outcome (arguments : value) (op : value -> M value) :
  (forall v, exists self method url json, op v = send w self method url json) ->
  tool_outcome w (tool_with_watch_id w arguments op).
Proof.
  intros Hop. unfold tool_with_watch_id.
  destruct arguments;
    try (eapply LocalRaise; cbn [py_get]; unfold attribute_error;
         now rewrite bind_raise_l).
  cbn [py_get]. rewrite bind_ret_l.
  destruct (truthy (dict_get "watch_id" entries)); cbn [negb].
  - apply tool_called, Hop.
  - now eapply LocalError.
Qed.

Lemma startswith_unknown_tool (name : string) :
  startswith "Error:" ("Error: Unknown tool '" ++ name ++ "'") = true.
Proof. reflexivity. Qed.

Lemma call_tool_body_outcome (name : string) (arguments : value) :
  tool_outcome w (call_tool_body w name arguments).
Proof.
  unfold call_tool_body.
  repeat match goal with
         | |- context [if name =? ?s then _ else _] => destruct (name =? s)
         end;
    try (apply tool_with_watch_id_outcome; intros v; do 4 eexists; reflexivity);
    try (apply tool_called; do 4 eexists; reflexivity).
  - destruct arguments;
      try (eapply LocalRaise; cbn [py_get]; unfold attribute_error;
           now rewrite bind_raise_l).
    cbn [py_get]. rewrite !bind_ret_l.
    destruct (truthy (dict_get "url" entries)); cbn [negb].
    + apply tool_called. do 4 eexists. reflexivity.
    + now eapply LocalError.
  - eapply LocalError; [reflexivity | apply startswith_unknown_tool].
Qed.
End ToolReplies.

(** C9.  For every tool name and every arguments value, [call_tool]
    returns, it does not raise, and what it returns is a single text item.
    Its text is [str] of the result when one outbound call was issued and
    came back with a result; in every other case (a tool that is not
    known, a required argument that is missing, arguments that are no
    mapping, a call that failed in any way) the text starts with
    "Error:". *)
Theorem call_tool_never_raises (w : Env) (name : string) (arguments : value) :
  exists cs reply,
    call_tool w name arguments = (cs, inr [mkTextContent "text" reply])
    /\ ((exists c result,
            cs = [c] /\ settle w c = inr result /\ reply = py_str w result)
        \/ startswith "Error:" reply = true).
Proof.
  unfold call_tool.
  destruct (call_tool_body_outcome w name arguments) as [reply E P | e E | c E];
    rewrite E.
  - exists [], reply. split; [reflexivity | now right].
  - exists [], ("Error: " ++ exn_str e). rewrite try_except_raise.
    split; [reflexivity | now right].
  - destruct (settle w c) as [e | result] eqn:S.
    + exists [c], ("Error: " ++ exn_str e). split; [reflexivity | now right].
    + exists [c], (py_str w result). split; [reflexivity|].
      left. now exists c, result.
Qed.

(** * Instances *)

Lemma dispatch_issues_the_table_call_witness :
  given "watch_id" [("watch_id", VStr "abc-123")]
  /\ (exists c,
        calls_of (handle_action env_remote_up (VStr "trigger_check")
                    (VDict [("watch_id", VStr "abc-123")])) = [c]
        /\ call_method c = "GET"
        /\ call_url c = "http://localhost:5000" ++ "/api/v1/watch/abc-123/trigger")
  /\ (exists c,
        calls_of (call_tool env_remote_up "trigger_check"
                    (VDict [("watch_id", VStr "abc-123")])) = [c]
        /\ call_method c = "GET"
        /\ call_url c = "http://localhost:5000" ++ "/api/v1/watch/abc-123/trigger").
Proof.
  assert (G : given "watch_id" [("watch_id", VStr "abc-123")])
    by (exists (VStr "abc-123"); split; reflexivity).
  split; [exact G|].
  apply (@dispatch_issues_the_table_call env_remote_up "trigger_check"
           (mkDescriptor "GET"
              [Lit "/api/v1/watch/"; Param "watch_id"; Lit "/trigger"]
              ["watch_id"])
           [("watch_id", VStr "abc-123")]).
  - simpl. tauto.
  - intros k [<- | []]. exact G.
Defined.

Lemma missing_parameter_fails_before_any_call_witness :
  absent_or_empty "watch_id" [("watch_id", VStr EmptyString)]
  /\ handle_action env_remote_up (VStr "delete_watch")
       (VDict [("watch_id", VStr EmptyString)])
     = ([], inl (ServerlessError ("watch_id" ++ " is required") 400 []))
  /\ call_tool env_remote_up "delete_watch"
       (VDict [("watch_id", VStr EmptyString)])
     = ([], inr (text_reply ("Error: " ++ "watch_id" ++ " is required"))).
Proof.
  assert (A : absent_or_empty "watch_id" [("watch_id", VStr EmptyString)])
    by (right; reflexivity).
  split; [exact A|].
  apply (proj1 (missing_parameter_fails_before_any_call env_remote_up)
           "delete_watch"
           (mkDescriptor "DELETE" [Lit "/api/v1/watch/"; Param "watch_id"]
              ["watch_id"])
           "watch_id" [("watch_id", VStr EmptyString)]).
  - simpl. tauto.
  - simpl. tauto.
  - exact A.
Defined.

Lemma create_watch_sends_url_and_optional_tag_witness :
  given "url" [("url", VStr "http://example.com"); ("tag", VStr "news")]
  /\ (exists c body,
        calls_of (handle_action env_remote_up (VStr "create_watch")
                    (VDict [("url", VStr "http://example.com");
                            ("tag", VStr "news")])) = [c]
        /\ call_method c = "POST"
        /\ call_json c = Some (VDict body)
        /\ url_and_optional_tag
             [("url", VStr "http://example.com"); ("tag", VStr "news")] body)
  /\ (exists c body,
        calls_of (call_tool env_remote_up "create_watch"
                    (VDict [("url", VStr "http://example.com");
                            ("tag", VStr "news")])) = [c]
        /\ call_method c = "POST"
        /\ call_json c = Some (VDict body)
        /\ url_and_optional_tag
             [("url", VStr "http://example.com"); ("tag", VStr "news")] body).
Proof.
  assert (G : given "url" [("url", VStr "http://example.com"); ("tag", VStr "news")])
    by (exists (VStr "http://example.com"); split; reflexivity).
  split; [exact G|].
  exact (create_watch_sends_url_and_optional_tag env_remote_up G).
Defined.

Lemma missing_action_is_a_400_witness :
  is_preflight (post [("params", VDict [])]) = false
  /\ request_body env_remote_down (post [("params", VDict [])])
     = ret (VDict [("params", VDict [])])
  /\ lookup "action" [("params", VDict [])] = None
  /\ exists r fields,
      async_handler env_remote_down (post [("params", VDict [])]) = ([], inr r)
      /\ statusCode r = 400%Z
      /\ value_at ["success"] (VDict (resp_body r)) = Some (VBool false)
      /\ value_at ["details"; "required_fields"] (VDict (resp_body r))
         = Some (VList fields)
      /\ In (VStr "action") fields.
Proof.
  split; [reflexivity|]. split; [reflexivity|]. split; [reflexivity|].
  apply (@missing_action_is_a_400 env_remote_down
           (post [("params", VDict [])]) [("params", VDict [])]);
    reflexivity.
Defined.

(** * Examples from the specification *)

Example script_url_is_sanitized :
  sanitize_input (VDict [("url", VStr "http://example.com<script>")])
  = VDict [("url", VStr "http://example.comscript")].
Proof. reflexivity. Qed.

Example nested_strings_are_sanitized :
  sanitize_input
    (VDict [("a<b", VList [VStr "  x<y> & z;  "; VInt 3; VNull])])
  = VDict [("a<b", VList [VStr "xy  z"; VInt 3; VNull])].
Proof. reflexivity. Qed.

Example preflight_is_a_200 :
  exists r,
    async_handler env_remote_down
      [("httpMethod", VStr "OPTIONS"); ("body", VStr "not json")] = ([], inr r)
    /\ statusCode r = 200%Z.
Proof. eexists. split; reflexivity. Qed.

Example unknown_action_is_a_400 :
  handle_action env_remote_up (VStr "unknown_action") (VDict [])
  = raise (ServerlessError "Unknown action: unknown_action" 400 []).
Proof. reflexivity. Qed.

Example create_watch_with_script_url :
  calls_of (async_handler env_remote_up
              (request "create_watch"
                 [("url", VStr "http://example.com<script>")]))
  = [mkCall "POST" "http://localhost:5000/api/v1/watch" []
       (Some (VDict [("url", VStr "http://example.comscript")])) 30].
Proof. reflexivity. Qed.

(** * More on sanitization *)

Lemma trim_edges_trimmed (l : list ascii) : edges_trimmed (trim l) = true.
Proof.
  unfold edges_trimmed.
  destruct (trim l) as [|c r] eqn:E; [reflexivity|].
  destruct (rev (c :: r)) as [|d t] eqn:R; [reflexivity|].
  rewrite (trim_head l (c := c)) by now rewrite E.
  rewrite (trim_last l (c := d)) by now rewrite E, R.
  reflexivity.
Qed.

Lemma edges_trimmed_trim (l : list ascii) :
  edges_trimmed l = true -> trim l = l.
Proof.
  unfold edges_trimmed, trim, rtrim, ltrim.
  destruct l as [|c r]; [reflexivity|].
  destruct (rev (c :: r)) as [|d t] eqn:R.
  - apply (f_equal (@List.length ascii)) in R.
    rewrite List.length_rev in R. discriminate R.
  - intros H. apply andb_true_iff in H as [Hc Hd].
    apply negb_true_iff in Hc, Hd.
    cbn [drop_while]. rewrite Hc, R. cbn [drop_while]. rewrite Hd, <- R.
    apply rev_involutive.
Qed.

Lemma forallb_Forall_true (f : ascii -> bool) (l : list ascii) :
  forallb f l = true <-> Forall (fun c => f c = true) l.
Proof.
  rewrite forallb_forall, Forall_forall. reflexivity.
Qed.

Lemma sanitize_str_clean (s : string) : clean_str (sanitize_str s) = true.
Proof.
  rewrite sanitize_str_is_spec. unfold clean_str, sanitize_str_spec.
  rewrite chars_of_chars. apply andb_true_iff. split.
  - apply forallb_Forall_true, Forall_trim, Forall_filter.
  - apply trim_edges_trimmed.
Qed.

Lemma clean_str_fixed (s : string) : clean_str s = true -> sanitize_str s = s.
Proof.
  unfold clean_str. intros H. apply andb_true_iff in H as [F T].
  rewrite sanitize_str_is_spec. unfold sanitize_str_spec.
  rewrite filter_all by now apply forallb_Forall_true.
  rewrite edges_trimmed_trim by exact T. apply of_chars_chars.
Qed.

Lemma clean_value_dict (d : dict) :
  clean_value (VDict d) = forallb (fun kv => clean_value (snd kv)) d.
Proof.
  simpl. induction d as [|[k x] r IH]; simpl; [reflexivity | now rewrite IH].
Qed.

(** X1.  Whatever the input, no string value of the output of
    [sanitize_input], at any depth, holds one of the six characters or
    starts or ends with whitespace. *)
Theorem sanitize_input_output_is_clean (v : value) :
  clean_value (sanitize_input v) = true.
Proof.
  induction v as [| b | n | s | l IH | d IH] using value_deep_ind;
    try reflexivity.
  - apply sanitize_str_clean.
  - rewrite sanitize_input_list. cbn [clean_value].
    rewrite forallb_forall. intros x Hx. apply in_map_iff in Hx as [y [<- Hy]].
    rewrite Forall_forall in IH. now apply IH.
  - rewrite sanitize_input_dict, clean_value_dict. unfold sanitize_items.
    rewrite forallb_forall. intros kv Hkv.
    apply in_map_iff in Hkv as [[k y] [<- Hy]].
    rewrite Forall_forall in IH. exact (IH _ Hy).
Qed.

(** X2.  [sanitize_input] leaves a value as it is exactly when every one
    of its string values is already clean: free of the six characters and
    of whitespace at its ends. *)
Theorem sanitize_input_fixes_exactly_the_clean (v : value) :
  sanitize_input v = v <-> clean_value v = true.
Proof.
  induction v as [| b | n | s | l IH | d IH] using value_deep_ind;
    try (split; reflexivity).
  - cbn [sanitize_input clean_value]. split.
    + intros [= E]. rewrite <- E. apply sanitize_str_clean.
    + intros C. now rewrite clean_str_fixed.
  - rewrite sanitize_input_list. cbn [clean_value].
    induction IH as [|x r Hx Hr IHr]; [split; reflexivity|].
    cbn [map forallb]. rewrite andb_true_iff, <- Hx. split.
    + intros [= Ex Er]. split; [exact Ex|].
      apply IHr. now rewrite Er.
    + intros [Ex Cr]. apply IHr in Cr. injection Cr as Er.
      now rewrite Ex, Er.
  - rewrite sanitize_input_dict, clean_value_dict. unfold sanitize_items.
    induction IH as [|[k x] r Hx Hr IHr]; [split; reflexivity|].
    cbn [map forallb fst snd] in *. rewrite andb_true_iff, <- Hx. split.
    + intros [= Ex Er]. split; [exact Ex|].
      apply IHr. now rewrite Er.
    + intros [Ex Cr]. apply IHr in Cr. injection Cr as Er.
      now rewrite Ex, Er.
Qed.

(** * The client *)

Lemma rstrip_char_decompose (c : ascii) (s : string) :
  exists t, s = rstrip_char c s ++ t
            /\ forallb (fun x => Ascii.eqb x c) (chars t) = true.
Proof.
  induction s as [|x r [t [E F]]]; [now exists EmptyString|].
  cbn [rstrip_char]. destruct (rstrip_char c r) as [|y r'] eqn:R.
  - simpl in E. subst t. destruct (Ascii.eqb x c) eqn:X.
    + exists (String x r). split; [reflexivity|]. simpl. now rewrite X, F.
    + exists r. now split.
  - exists t. split; [|exact F]. simpl. now rewrite E at 1.
Qed.

Lemma rstrip_char_no_end (c : ascii) (s : string) :
  ends_with c (rstrip_char c s) = false.
Proof.
  induction s as [|x r IH]; [reflexivity|].
  cbn [rstrip_char]. destruct (rstrip_char c r) as [|y r'] eqn:R.
  - destruct (Ascii.eqb x c) eqn:X; [reflexivity|]. simpl. exact X.
  - exact IH.
Qed.

(** X3.  A client keeps its base URL without the slashes at its end, and
    nothing else of it is lost: the URL given is the one kept followed by
    slashes only, and the one kept does not end with a slash.  Its headers
    are the [x-api-key] header when the key is not empty and no header
    otherwise. *)
Theorem client_keeps_the_base_url_without_trailing_slashes
    (url key : string) :
  (exists slashes,
      url = base_url (new_client url key) ++ slashes
      /\ forallb (fun x => Ascii.eqb x "/") (chars slashes) = true)
  /\ ends_with "/" (base_url (new_client url key)) = false
  /\ (key <> EmptyString ->
      headers (new_client url key) = [("x-api-key", VStr key)])
  /\ (key = EmptyString -> headers (new_client url key) = []).
Proof.
  split; [apply rstrip_char_decompose|].
  split; [apply rstrip_char_no_end|].
  split.
  - intros K. cbn [new_client headers]. now destruct key.
  - now intros ->.
Qed.

Section ClientOperations.
Variable w : Env.

Lemma sent (method endpoint : string) (json : option value) :
  In method ["GET"; "POST"; "DELETE"] ->
  startswith "/api/v1/" endpoint = true ->
  method = "POST" \/ json = None ->
  sent_by_client w
    (mkCall method (base_url (client w) ++ endpoint) (headers (client w)) json 30).
Proof. intros. now exists method, endpoint, json. Qed.

Lemma list_watches_op : client_op w (list_watches w (client w)).
Proof.
  eexists. split; [|reflexivity].
  apply sent; [simpl; tauto | reflexivity | now right].
Qed.

Lemma system_info_op : client_op w (system_info w (client w)).
Proof.
  eexists. split; [|reflexivity].
  apply sent; [simpl; tauto | reflexivity | now right].
Qed.

Lemma get_watch_op (v : value) : client_op w (get_watch w (client w) v).
Proof.
  eexists. split; [|reflexivity].
  apply sent; [simpl; tauto | reflexivity | now right].
Qed.

Lemma delete_watch_op (v : value) : client_op w (delete_watch w (client w) v).
Proof.
  eexists. split; [|reflexivity].
  apply sent; [simpl; tauto | reflexivity | now right].
Qed.

Lemma trigger_check_op (v : value) : client_op w (trigger_check w (client w) v).
Proof.
  eexists. split; [|reflexivity].
  apply sent; [simpl; tauto | reflexivity | now right].
Qed.

Lemma get_history_op (v : value) : client_op w (get_history w (client w) v).
Proof.
  eexists. split; [|reflexivity].
  apply sent; [simpl; tauto | reflexivity | now right].
Qed.

Lemma create_watch_op (url tag : value) :
  client_op w (create_watch w (client w) url tag).
Proof.
  eexists. split; [|reflexivity].
  apply sent; [simpl; tauto | reflexivity | now left].
Qed.
End ClientOperations.

#[local] Hint Resolve list_watches_op system_info_op get_watch_op
  delete_watch_op trigger_check_op get_history_op create_watch_op : pure_db.

(** X4.  [_request] knows four methods.  With any other it raises
    [ValueError] and nothing goes out.  A GET or a DELETE goes out without a
    JSON body even when [data] is given; a POST or a PUT carries [data].
    Each of the four is one call to the base URL followed by the endpoint,
    with the client's headers and a timeout of 30. *)
Theorem request_sends_by_method (w : Env) (self : ChangeDetectionClient)
    (method endpoint : string) (data : option value) :
  (~ In method ["GET"; "POST"; "DELETE"; "PUT"] ->
   _request w self method endpoint data
   = raise (PyError "ValueError" ("Unsupported method: " ++ method)))
  /\ (In method ["GET"; "DELETE"] ->
      calls_of (_request w self method endpoint data)
      = [mkCall method (base_url self ++ endpoint) (headers self) None 30])
  /\ (In method ["POST"; "PUT"] ->
      calls_of (_request w self method endpoint data)
      = [mkCall method (base_url self ++ endpoint) (headers self) data 30]).
Proof.
  unfold _request. repeat split.
  - intros N.
    destruct (String.eqb_spec method "GET") as [->|];
      [exfalso; apply N; simpl; auto|].
    destruct (String.eqb_spec method "POST") as [->|];
      [exfalso; apply N; simpl; auto|].
    destruct (String.eqb_spec method "DELETE") as [->|];
      [exfalso; apply N; simpl; auto|].
    destruct (String.eqb_spec method "PUT") as [->|];
      [exfalso; apply N; simpl; auto|].
    reflexivity.
  - intros [<- | [<- | []]]; reflexivity.
  - intros [<- | [<- | []]]; reflexivity.
Qed.

(** * Every outcome of dispatch *)

Section DispatchOutcomes.
Variable w : Env.

Lemma settle_raises_py (c : Call) (e : exn) :
  settle w c = inl e -> exists ty text, e = PyError ty text.
Proof.
  unfold settle. destruct (transport w c) as [[ty text] | text].
  - intros [= <-]. now exists ty, text.
  - destruct (truthy (VStr text)); [|discriminate].
    destruct (json_loads w text) as [err | v]; [|discriminate].
    intros [= <-]. now eexists _, _.
Qed.

Lemma dispatched (op : M value) :
  client_op w op ->
  dispatch_outcome w (result <- op ;; ret (success result)).
Proof.
  intros [c [S ->]]. apply Dispatched with (c := c); [exact S|].
  unfold bind. now destruct (settle w c).
Qed.

Lemma with_watch_id_outcome (params : value) (op : value -> M value) :
  (forall v, client_op w (op v)) ->
  dispatch_outcome w (with_watch_id params op).
Proof.
  intros Hop. unfold with_watch_id.
  destruct params;
    try (eapply Refused; [cbn [py_get]; unfold attribute_error;
                          now rewrite bind_raise_l | exact I]).
  cbn [py_get]. rewrite bind_ret_l.
  destruct (truthy (dict_get "watch_id" entries)); cbn [negb].
  - apply dispatched, Hop.
  - eapply Refused; reflexivity.
Qed.

Lemma handle_action_body_outcome (action params : value) :
  dispatch_outcome w (handle_action_body w action params).
Proof.
  unfold handle_action_body.
  repeat match goal with
         | |- context [if eq_str action ?s then _ else _] =>
             destruct (eq_str action s)
         end;
    try (apply with_watch_id_outcome; auto with pure_db);
    try (apply dispatched; auto with pure_db).
  - destruct params;
      try (eapply Refused; [cbn [py_get]; unfold attribute_error;
                            now rewrite bind_raise_l | exact I]).
    cbn [py_get]. rewrite !bind_ret_l.
    destruct (truthy (dict_get "url" entries)); cbn [negb].
    + apply dispatched. auto with pure_db.
    + eapply Refused; reflexivity.
  - eapply Answered; reflexivity.
  - eapply Refused; reflexivity.
Qed.

(** What [handle_action] makes of the three: the success as it is, a local
    [ServerlessError] as it is, any other exception a status 500. *)
Lemma handle_action_outcome (action params : value) :
  (exists result,
      handle_action w action params = ret result
      /\ lookup "success" result = Some (VBool true))
  \/ (exists message code details,
        handle_action w action params
        = raise (ServerlessError message code details)
        /\ (code = 400 \/ code = 500)%Z)
  \/ (exists c,
        sent_by_client w c
        /\ handle_action w action params
           = ([c], match settle w c with
                   | inl e =>
                       inl (ServerlessError
                              ("Internal server error: " ++ exn_str e) 500
                              [("action", action);
                               ("error_type", VStr (exn_type_name e))])
                   | inr result => inr (success result)
                   end)).
Proof.
  unfold handle_action.
  destruct (handle_action_body_outcome action params)
    as [result E T | e E K | c S E]; rewrite E.
  - left. now exists result.
  - right; left. rewrite try_except_raise.
    destruct e as [m code d | ty text].
    + exists m, code, d. split; [reflexivity | now left].
    + eexists _, _, _. split; [reflexivity | now right].
  - right; right. exists c. split; [exact S|].
    destruct (settle w c) as [e | v] eqn:R; [|reflexivity].
    destruct (settle_raises_py _ R) as [ty [text ->]]. reflexivity.
Qed.
End DispatchOutcomes.

(** X5.  Whatever the action and the params, [handle_action] lets no
    exception out but [ServerlessError], with status 400 or 500; a status
    400 means that nothing was sent. *)
Theorem handle_action_raises_serverless_errors_only (w : Env)
    (action params : value) :
  match handle_action w action params with
  | (cs, inl (ServerlessError _ code _)) =>
      (code = 400 /\ cs = []) \/ code = 500
  | (_, inl (PyError _ _)) => False
  | (_, inr _) => True
  end%Z.
Proof.
  unfold handle_action.
  destruct (handle_action_body_outcome w action params)
    as [result E T | e E K | c S E]; rewrite E.
  - exact I.
  - rewrite try_except_raise. destruct e as [m code d | ty text]; simpl.
    + now left.
    + now right.
  - destruct (settle w c) as [e | v] eqn:R; [|exact I].
    destruct (settle_raises_py w _ R) as [ty [text ->]]. simpl. now right.
Qed.

(** * Every answer of the HTTP front end *)

Lemma local_ret {A} (a : A) : local (ret a).
Proof. left. now exists a. Qed.

Lemma local_raise {A} (e : exn) : local_exn e -> local (raise (A := A) e).
Proof. right. now exists e. Qed.

Lemma local_bind {A B} (m : M A) (f : A -> M B) :
  local m -> (forall a, local (f a)) -> local (x <- m ;; f x).
Proof.
  intros [[a ->] | [e [-> K]]] H.
  - rewrite bind_ret_l. apply H.
  - rewrite bind_raise_l. now apply local_raise.
Qed.

Lemma attribute_error_local {A} (obj : value) (attr : string) :
  local (attribute_error (A := A) obj attr).
Proof. now apply local_raise. Qed.

Lemma py_contains_local (obj : value) (k : string) : local (py_contains obj k).
Proof. destruct obj; try apply local_ret; now apply local_raise. Qed.

Lemma py_getitem_local (obj : value) (k : string) : local (py_getitem obj k).
Proof.
  destruct obj; try (now apply local_raise). simpl.
  destruct (lookup k entries); [apply local_ret | now apply local_raise].
Qed.

Lemma py_get_default_local (obj : value) (k : string) (default : value) :
  local (py_get_default obj k default).
Proof. destruct obj; try apply local_ret; apply attribute_error_local. Qed.

Lemma parse_body_local (w : Env) (body_str : value) :
  local (parse_body w body_str).
Proof.
  destruct body_str; try apply local_ret. simpl.
  destruct (json_loads w s); [now apply local_raise | apply local_ret].
Qed.

Lemma logged_params_local (params : value) : local (logged_params params).
Proof.
  unfold logged_params. destruct (truthy params); [|apply local_ret].
  destruct params; try apply attribute_error_local. apply local_ret.
Qed.

Lemma check_required_local (fields : list string) (body : value) :
  local (check_required fields body).
Proof.
  induction fields as [|f r IH]; simpl; [apply local_ret|].
  apply local_bind; [apply py_contains_local|].
  intros present. destruct present; simpl; [exact IH | now apply local_raise].
Qed.

Lemma validate_request_local (w : Env) (body : value) :
  local (validate_request w body).
Proof.
  unfold validate_request.
  apply local_bind; [apply check_required_local | intros _].
  apply local_bind; [apply py_getitem_local | intros action].
  destruct (negb _); [now apply local_raise | apply local_ret].
Qed.

Lemma respond_answered (w : Env) (action params : value) :
  answered w (respond w (handle_action w action params)).
Proof.
  destruct (handle_action_outcome w action params)
    as [[result [E T]] | [[m [code [d [E K]]]] | [c [S E]]]]; rewrite E.
  - unfold ret. rewrite respond_ret.
    eapply Success; [now left | exact T | reflexivity].
  - unfold raise. rewrite respond_raise.
    eapply Classified; [now left | exact K | reflexivity | reflexivity].
  - destruct (settle w c) as [e | v].
    + rewrite respond_raise.
      eapply Classified;
        [right; now exists c | now right | discriminate | reflexivity].
    + rewrite respond_ret.
      eapply Success with (result := success v);
        [right; now exists c | reflexivity | reflexivity].
Qed.

Lemma error_response_answered (w : Env) (e : exn) :
  local_exn e -> answered w (ret (error_response w e)).
Proof.
  destruct e as [m code d | ty text]; simpl; intros K.
  - eapply Classified; [now left | left; exact K | reflexivity | reflexivity].
  - now eapply Unexpected.
Qed.

(** The stages before dispatch are local; what is left is [respond]. *)
Lemma async_handler_answered (w : Env) (event : dict) :
  answered w (async_handler w event).
Proof.
  unfold async_handler, async_handler_body.
  destruct (eq_str (dict_get "httpMethod" event) "OPTIONS");
    [now apply Preflight|].
  destruct (parse_body_local w (dict_get_default "body" (VStr "{}") event))
    as [[body ->] | [e [-> K]]];
    [rewrite bind_ret_l
    | rewrite bind_raise_l, try_except_raise;
      now apply error_response_answered].
  destruct (validate_request_local w body) as [[u ->] | [e [-> K]]];
    [rewrite bind_ret_l
    | rewrite bind_raise_l, try_except_raise;
      now apply error_response_answered].
  destruct (py_getitem_local body "action") as [[action ->] | [e [-> K]]];
    [rewrite bind_ret_l
    | rewrite bind_raise_l, try_except_raise;
      now apply error_response_answered].
  destruct (py_get_default_local body "params" (VDict []))
    as [[params ->] | [e [-> K]]];
    [rewrite bind_ret_l
    | rewrite bind_raise_l, try_except_raise;
      now apply error_response_answered].
  destruct (logged_params_local (sanitize_input params))
    as [[l ->] | [e [-> K]]];
    [rewrite bind_ret_l
    | rewrite bind_raise_l, try_except_raise;
      now apply error_response_answered].
  apply respond_answered.
Qed.

Lemma lookup_dict_set_same (k : string) (v : value) (d : dict) :
  lookup k (dict_set k v d) = Some v.
Proof.
  induction d as [|[k' v'] r IH]; simpl.
  - now rewrite String.eqb_refl.
  - destruct (k =? k') eqn:E; simpl; rewrite ?String.eqb_refl, ?E; auto.
Qed.

Lemma lookup_dict_set_other (k k' : string) (v : value) (d : dict) :
  k <> k' -> lookup k (dict_set k' v d) = lookup k d.
Proof.
  intros N. apply String.eqb_neq in N.
  induction d as [|[k0 v0] r IH]; simpl.
  - now rewrite N.
  - destruct (k' =? k0) eqn:E; simpl.
    + apply String.eqb_eq in E. subst k0. now rewrite N.
    + now rewrite IH.
Qed.

Lemma lookup_app (k : string) (d e : dict) :
  lookup k (d ++ e)%list
  = match lookup k d with Some v => Some v | None => lookup k e end.
Proof.
  induction d as [|[k' v'] r IH]; simpl; [reflexivity|].
  now destruct (k =? k').
Qed.

(** After [d.update(e)] a key has the value of its last entry in [e], or
    the one it had in [d] when [e] does not have it. *)
Lemma lookup_dict_update (k : string) (d e : dict) :
  lookup k (dict_update d e)
  = match lookup k (rev e) with Some v => Some v | None => lookup k d end.
Proof.
  unfold dict_update. revert d.
  induction e as [|[k' v'] r IH]; intros d; simpl; [reflexivity|].
  rewrite IH, lookup_app. destruct (lookup k (rev r)); [reflexivity|].
  simpl. destruct (String.eqb_spec k k') as [-> | N].
  - apply lookup_dict_set_same.
  - now apply lookup_dict_set_other.
Qed.

Lemma async_handler_always_answers_aux (w : Env) (event : dict) :
  exists cs r,
    async_handler w event = (cs, inr r)
    /\ at_most_one_client_call w cs.
Proof.
  destruct (async_handler_answered w event)
    as [E | cs result C T E | cs m code d C K N E | text E]; rewrite E.
  - eexists _, _. split; [reflexivity | now left].
  - now eexists _, _.
  - now eexists _, _.
  - eexists _, _. split; [reflexivity | now left].
Qed.

Lemma request_id_returns (context : value) :
  truthy context = false \/ type_name context = "dict" ->
  exists v, request_id context = ret v.
Proof.
  unfold request_id. intros [F | D].
  - rewrite F. now eexists.
  - destruct context; try discriminate D.
    destruct (truthy (VDict entries)); now eexists.
Qed.

(** X6.  With no context, or with a context that is falsy or a mapping,
    [handler] (and so [async_handler], its first statement included)
    returns a response and lets no exception out, whatever the environment
    and the event; on the way it issued no outbound call or exactly one,
    and that one is a call of the client: a GET, POST or DELETE under
    [/api/v1/] of the base URL, with the client's headers and the timeout
    of 30. *)
Theorem async_handler_always_answers (w : Env) (event : dict)
    (context : option value) :
  match context with
  | None => True
  | Some c => truthy c = false \/ type_name c = "dict"
  end ->
  exists cs r,
    handler w event context = (cs, inr r)
    /\ (List.length cs <= 1)%nat
    /\ Forall (sent_by_client w) cs.
Proof.
  intros H.
  assert (R : exists v,
             request_id (match context with Some c => c | None => VNull end)
             = ret v).
  { destruct context as [c|]; [now apply request_id_returns|].
    now eexists. }
  destruct R as [v R].
  unfold handler, async_handler_in_context. rewrite R, bind_ret_l.
  destruct (async_handler_always_answers_aux w event)
    as [cs [r [E A]]].
  exists cs, r. split; [exact E|].
  destruct A as [-> | [c [-> S]]]; split; simpl; auto.
Qed.

Lemma async_handler_always_answers_witness :
  (truthy (VDict [("requestId", VStr "r-1")]) = false
   \/ type_name (VDict [("requestId", VStr "r-1")]) = "dict")
  /\ exists cs r,
      handler env_remote_down
        (request "get_watch" [("watch_id", VStr "abc-123")])
        (Some (VDict [("requestId", VStr "r-1")])) = (cs, inr r)
      /\ (List.length cs <= 1)%nat
      /\ Forall (sent_by_client env_remote_down) cs.
Proof.
  split; [now right|].
  apply (@async_handler_always_answers env_remote_down
           (request "get_watch" [("watch_id", VStr "abc-123")])
           (Some (VDict [("requestId", VStr "r-1")]))).
  now right.
Defined.

(** X7.  The status of a response of [async_handler] is 200, 400 or 500;
    the body says [success: false] exactly when the status is not 200; and
    a status 400 means that nothing was sent to the remote service. *)
Theorem status_tells_success (w : Env) (event : dict)
    (cs : list Call) (r : response) :
  async_handler w event = (cs, inr r) ->
  (statusCode r = 200 \/ statusCode r = 400 \/ statusCode r = 500)%Z
  /\ (statusCode r <> 200%Z
      <-> value_at ["success"] (VDict (resp_body r)) = Some (VBool false))
  /\ (statusCode r = 400%Z -> cs = []).
Proof.
  destruct (async_handler_answered w event)
    as [E | cs' result C T E | cs' m code d C K N E | text E];
    rewrite E; intros [= <- <-].
  - split; [now left|]. split; [|discriminate].
    split; [intros H; now contradiction H | discriminate].
  - split; [now left|]. split; [|discriminate].
    cbn [value_at resp_body create_response statusCode].
    rewrite lookup_dict_set_other, T by discriminate.
    split; [intros H; now contradiction H | discriminate].
  - split; [right; exact K|]. split; [|exact N].
    cbn [statusCode classified_error_response create_response].
    split; [reflexivity|]. intros _. destruct K as [-> | ->]; discriminate.
  - split; [now right; right|]. split; [|discriminate].
    split; [reflexivity | discriminate].
Qed.

Lemma status_tells_success_witness :
  async_handler env_remote_up (request "get_watch" [])
  = ([], inr (missing_parameter_response env_remote_up "watch_id"))
  /\ (statusCode (missing_parameter_response env_remote_up "watch_id")
      <> 200%Z
      <-> value_at ["success"]
            (VDict (resp_body
                      (missing_parameter_response env_remote_up "watch_id")))
          = Some (VBool false)).
Proof.
  split; [reflexivity|].
  exact (proj1 (proj2 (@status_tells_success env_remote_up
                         (request "get_watch" []) []
                         (missing_parameter_response env_remote_up "watch_id")
                         eq_refl))).
Defined.

Lemma answered_is_created (w : Env) (m : M response) :
  answered w m ->
  forall cs r, m = (cs, inr r) ->
  exists status body, r = create_response w status body None.
Proof.
  intros [E | cs' result C T E | cs' msg code d C K N E | text E] cs r;
    rewrite E; intros [= <- <-]; now eexists _, _.
Qed.

(** X8.  Every response of [async_handler] has the content type of JSON and
    the three security headers; it has the CORS headers exactly when CORS
    is enabled, the allowed origin being the first one configured (or [*]
    when none is); and its body carries [_metadata] with the UTC time of
    the answer followed by [Z] and the version [1.0.0]. *)
Theorem every_response_has_the_fixed_headers_and_metadata (w : Env)
    (event : dict) (cs : list Call) (r : response) :
  async_handler w event = (cs, inr r) ->
  lookup "Content-Type" (resp_headers r) = Some (VStr "application/json")
  /\ lookup "X-Content-Type-Options" (resp_headers r) = Some (VStr "nosniff")
  /\ lookup "X-Frame-Options" (resp_headers r) = Some (VStr "DENY")
  /\ lookup "X-XSS-Protection" (resp_headers r) = Some (VStr "1; mode=block")
  /\ lookup "Access-Control-Allow-Origin" (resp_headers r)
     = (if ENABLE_CORS w
        then Some (VStr (hd "*" (ALLOWED_ORIGINS w))) else None)
  /\ lookup "Access-Control-Allow-Methods" (resp_headers r)
     = (if ENABLE_CORS w then Some (VStr "GET, POST, OPTIONS") else None)
  /\ lookup "Access-Control-Allow-Headers" (resp_headers r)
     = (if ENABLE_CORS w
        then Some (VStr "Content-Type, Authorization") else None)
  /\ value_at ["_metadata"] (VDict (resp_body r))
     = Some (VDict [("timestamp", VStr (utcnow_isoformat w ++ "Z"));
                    ("version", VStr "1.0.0")]).
Proof.
  intros E.
  destruct (answered_is_created (async_handler_answered w event) E)
    as [status [body ->]].
  cbn [resp_headers resp_body create_response value_at].
  rewrite lookup_dict_set_same.
  destruct (ENABLE_CORS w); [destruct (ALLOWED_ORIGINS w)|];
    repeat split; reflexivity.
Qed.

Lemma every_response_has_the_fixed_headers_and_metadata_witness :
  exists r,
    async_handler env_remote_down (request "system_info" [])
    = ([mkCall "GET" "http://localhost:5000/api/v1/systeminfo"
          [("x-api-key", VStr "secret")] None 30], inr r)
    /\ lookup "X-Frame-Options" (resp_headers r) = Some (VStr "DENY")
    /\ lookup "Access-Control-Allow-Origin" (resp_headers r)
       = Some (VStr "*")
    /\ value_at ["_metadata"; "version"] (VDict (resp_body r))
       = Some (VStr "1.0.0").
Proof.
  eexists. split; [reflexivity|].
  pose proof (@every_response_has_the_fixed_headers_and_metadata
                env_remote_down (request "system_info" []) _ _ eq_refl)
    as [_ [_ [F [_ [O _]]]]].
  split; [exact F|]. split; [exact O | reflexivity].
Defined.

(** X9.  [create_response] keeps the status it is given; it puts the stamp
    under [_metadata], over any value the body had there, and leaves every
    other key of the body with its value; and a header given in [headers]
    takes the place of the default of the same name, while the names not
    given keep their defaults. *)
Theorem create_response_stamps_and_overrides (w : Env) (status : Z)
    (body : dict) (headers : option dict) :
  statusCode (create_response w status body headers) = status
  /\ lookup "_metadata" (resp_body (create_response w status body headers))
     = Some (VDict [("timestamp", VStr (utcnow_isoformat w ++ "Z"));
                    ("version", VStr "1.0.0")])
  /\ (forall k, k <> "_metadata" ->
        lookup k (resp_body (create_response w status body headers))
        = lookup k body)
  /\ (forall k,
        lookup k (resp_headers (create_response w status body headers))
        = match headers with
          | Some given =>
              match lookup k (rev given) with
              | Some v => Some v
              | None =>
                  lookup k (resp_headers (create_response w status body None))
              end
          | None =>
              lookup k (resp_headers (create_response w status body None))
          end).
Proof.
  split; [reflexivity|].
  split; [apply lookup_dict_set_same|].
  split; [intros k N; now apply lookup_dict_set_other|].
  intros k. destruct headers as [given|]; [|reflexivity].
  cbn [resp_headers create_response].
  destruct given as [|kv given']; [reflexivity|].
  cbn [truthy]. apply lookup_dict_update.
Qed.

(** * Requests that are turned down before dispatch *)

(** X10.  A request that is not a preflight and whose body is a string that
    [json.loads] rejects is answered with status 400, the error
    [Invalid JSON in request body] and the text of the decoder under
    [details.error]; nothing is sent. *)
Theorem invalid_json_is_a_400 (w : Env) (event : dict) (s err : string) :
  is_preflight event = false ->
  dict_get_default "body" (VStr "{}") event = VStr s ->
  json_loads w s = inl err ->
  async_handler w event
  = ret (classified_error_response w "Invalid JSON in request body" 400
           [("error", VStr err)]).
Proof.
  intros P B J. unfold async_handler, async_handler_body.
  fold (is_preflight event). rewrite P, B. cbn [parse_body]. rewrite J.
  now rewrite bind_raise_l, try_except_raise.
Qed.

Lemma invalid_json_is_a_400_witness :
  json_loads env_remote_up "{action" = inl "Expecting value: line 1 column 1 (char 0)"
  /\ async_handler env_remote_up
       [("httpMethod", VStr "POST"); ("body", VStr "{action")]
     = ret (classified_error_response env_remote_up
              "Invalid JSON in request body" 400
              [("error", VStr "Expecting value: line 1 column 1 (char 0)")]).
Proof.
  split; [reflexivity|].
  apply (@invalid_json_is_a_400 env_remote_up
           [("httpMethod", VStr "POST"); ("body", VStr "{action")]
           "{action"); reflexivity.
Defined.

(** X11.  A request that is not a preflight and whose parsed body is a JSON
    object with an [action] that is not one of the eight names, compared as
    it was sent, is answered with status 400, the error
    [Invalid action: <action>] and the eight names under
    [details.valid_actions]; nothing is sent.  The action is checked before
    it is sanitized: a name that only sanitization would make valid is
    turned down. *)
Theorem invalid_action_is_a_400 (w : Env) (event body : dict)
    (action : value) :
  is_preflight event = false ->
  request_body w event = ret (VDict body) ->
  lookup "action" body = Some action ->
  existsb (eq_str action) valid_actions = false ->
  async_handler w event
  = ret (classified_error_response w
           ("Invalid action: " ++ py_str w action) 400
           [("valid_actions",
             VList [VStr "list_watches"; VStr "get_watch";
                    VStr "create_watch"; VStr "delete_watch";
                    VStr "trigger_check"; VStr "get_history";
                    VStr "system_info"; VStr "health_check"])]).
Proof.
  intros P E L V. unfold async_handler, async_handler_body.
  fold (is_preflight event). fold (request_body w event).
  rewrite P, E, bind_ret_l. unfold validate_request.
  cbn [check_required required_fields py_contains py_getitem]. rewrite L.
  rewrite !bind_ret_l. cbn [negb]. rewrite bind_ret_l, V. cbn [negb].
  now rewrite bind_raise_l, try_except_raise.
Qed.

Lemma invalid_action_is_a_400_witness :
  existsb (eq_str (VStr "get_watch;")) valid_actions = false
  /\ sanitize_input (VStr "get_watch;") = VStr "get_watch"
  /\ async_handler env_remote_up
       (request "get_watch;" [("watch_id", VStr "abc-123")])
     = ret (classified_error_response env_remote_up
              ("Invalid action: " ++ "get_watch;") 400
              [("valid_actions",
                VList [VStr "list_watches"; VStr "get_watch";
                       VStr "create_watch"; VStr "delete_watch";
                       VStr "trigger_check"; VStr "get_history";
                       VStr "system_info"; VStr "health_check"])]).
Proof.
  split; [reflexivity|]. split; [reflexivity|].
  apply (@invalid_action_is_a_400 env_remote_up
           (request "get_watch;" [("watch_id", VStr "abc-123")])
           [("action", VStr "get_watch;");
            ("params", VDict [("watch_id", VStr "abc-123")])]
           (VStr "get_watch;")); reflexivity.
Defined.

Lemma type_name_sanitize_input (v : value) :
  type_name (sanitize_input v) = type_name v.
Proof. now destruct v. Qed.

(** X12.  A request that passes validation but whose params, once
    sanitized, are truthy and no mapping (a non-empty list, a non-blank
    string, a number, [true]) never reaches [handle_action]: the log record
    asks them for [keys()], and the answer is the status 500 of the last
    [except] clause.  Its [message] is the text of the [AttributeError]
    when [DEBUG] is ["true"] and [An unexpected error occurred] with any
    other setting; nothing is sent. *)
Theorem params_that_are_no_mapping_are_a_500 (w : Env) (event body : dict)
    (action params : value) :
  is_preflight event = false ->
  request_body w event = ret (VDict body) ->
  lookup "action" body = Some action ->
  existsb (eq_str action) valid_actions = true ->
  lookup "params" body = Some params ->
  truthy (sanitize_input params) = true ->
  type_name params <> "dict" ->
  async_handler w event
  = ret (unexpected_error_response w
           ("'" ++ type_name params ++ "' object has no attribute 'keys'")).
Proof.
  intros P E L V G T N. unfold async_handler, async_handler_body.
  fold (is_preflight event). fold (request_body w event).
  rewrite P, E, bind_ret_l, (validate_request_ok _ _ L V), bind_ret_l.
  cbn [py_getitem py_get_default]. unfold dict_get_default.
  rewrite L, G, !bind_ret_l. unfold logged_params. rewrite T.
  rewrite <- (type_name_sanitize_input params).
  destruct (sanitize_input params) eqn:S;
    try (unfold attribute_error;
         now rewrite bind_raise_l, try_except_raise).
  exfalso. apply N. now rewrite <- (type_name_sanitize_input params), S.
Qed.

Lemma params_that_are_no_mapping_are_a_500_witness :
  debug_mode env_remote_up = false
  /\ async_handler env_remote_up
       (post [("action", VStr "health_check"); ("params", VList [VInt 1])])
     = ret (unexpected_error_response env_remote_up
              ("'" ++ "list" ++ "' object has no attribute 'keys'"))
  /\ value_at ["message"]
       (VDict (resp_body
                 (unexpected_error_response env_remote_up
                    ("'" ++ "list" ++ "' object has no attribute 'keys'"))))
     = Some (VStr "An unexpected error occurred").
Proof.
  split; [reflexivity|]. split; [|reflexivity].
  apply (@params_that_are_no_mapping_are_a_500 env_remote_up
           (post [("action", VStr "health_check"); ("params", VList [VInt 1])])
           [("action", VStr "health_check"); ("params", VList [VInt 1])]
           (VStr "health_check") (VList [VInt 1]));
    try reflexivity. discriminate.
Defined.

(** * Requests that are dispatched *)

Section Dispatched.
Variable w : Env.

(** [handle_action] around one operation of the client. *)
Lemma handle_action_wraps (action : value) (c : Call) :
  try_except
    (result <- ([c], settle w c) ;; ret (success result))
    (fun e =>
       match e with
       | ServerlessError _ _ _ => raise e
       | _ =>
           raise (serverless_error ("Internal server error: " ++ exn_str e) 500
                    (Some [("action", action);
                           ("error_type", VStr (exn_type_name e))]))
       end)
  = ([c], match settle w c with
          | inl e =>
              inl (ServerlessError ("Internal server error: " ++ exn_str e) 500
                     [("action", action);
                      ("error_type", VStr (exn_type_name e))])
          | inr result => inr (success result)
          end).
Proof.
  destruct (settle w c) as [e | v] eqn:R; [|reflexivity].
  destruct (settle_raises_py w _ R) as [ty [text ->]]. reflexivity.
Qed.

(** An action of the table with its required parameters given: one call,
    the table's, and its outcome wrapped. *)
Lemma handle_action_given (action : string) (desc : descriptor)
    (params : dict) :
  In (action, desc) action_table ->
  (forall k, In k (d_required desc) -> given k params) ->
  exists c,
    call_method c = d_method desc
    /\ call_url c = base_url (client w) ++ substitute w (d_path desc) params
    /\ (action = "create_watch" ->
        call_json c
        = Some (VDict (if truthy (dict_get "tag" params)
                       then [("url", dict_get "url" params);
                             ("tag", dict_get "tag" params)]
                       else [("url", dict_get "url" params)])))
    /\ handle_action w (VStr action) (VDict params)
       = ([c], match settle w c with
               | inl e =>
                   inl (ServerlessError
                          ("Internal server error: " ++ exn_str e) 500
                          [("action", VStr action);
                           ("error_type", VStr (exn_type_name e))])
               | inr result => inr (success result)
               end).
Proof.
  intros Hin Hreq. unfold handle_action.
  table_cases Hin; cbn [d_required d_method d_path substitute] in *;
    rewrite ?append_empty_r; pick_branch;
    try (assert (T := given_truthy (Hreq "watch_id" (or_introl eq_refl)));
         rewrite (with_watch_id_given _ _ T));
    try (assert (T := given_truthy (Hreq "url" (or_introl eq_refl)));
         cbn [py_get]; rewrite !bind_ret_l, T; cbn [negb]);
    try (eexists; split; [|split; [|split; [discriminate|]]];
         [| | apply handle_action_wraps]; reflexivity).
  unfold create_watch. destruct (truthy (dict_get "tag" params));
    (eexists; split; [|split; [|split; [intros _|]]];
     [| | | apply handle_action_wraps]; reflexivity).
Qed.
End Dispatched.

(** X13.  A request that passes validation, for an action of the table,
    with a mapping for params that gives each required parameter a value
    that is still non-empty once sanitized, issues exactly one call: the
    table's method and path, the path parameter taken from the sanitized
    params (for a string, its sanitized text).  When that call comes back
    with a result, the answer is status 200 with [success: true] and the
    result under [data]. *)
Theorem valid_request_is_dispatched_on_sanitized_params (w : Env)
    (event body : dict) (action : string) (desc : descriptor)
    (params : dict) :
  is_preflight event = false ->
  request_body w event = ret (VDict body) ->
  lookup "action" body = Some (VStr action) ->
  In (action, desc) action_table ->
  dict_get_default "params" (VDict []) body = VDict params ->
  (forall k, In k (d_required desc) -> given k (sanitize_items params)) ->
  (forall k s, lookup k params = Some (VStr s) ->
     dict_get k (sanitize_items params) = VStr (sanitize_str s))
  /\ exists c,
      calls_of (async_handler w event) = [c]
      /\ call_method c = d_method desc
      /\ call_url c
         = base_url (client w)
           ++ substitute w (d_path desc) (sanitize_items params)
      /\ forall result,
          settle w c = inr result ->
          async_handler w event
          = ([c], inr (create_response w 200
                         [("success", VBool true); ("data", result)] None)).
Proof.
  intros P E L Hin G Hreq. split.
  - intros k s Lk. unfold dict_get.
    now rewrite lookup_sanitize_items, Lk.
  - rewrite (async_handler_dispatch w event P E L (table_action_valid Hin) G).
    destruct (@handle_action_given w _ _ _ Hin Hreq) as [c [Hm [Hu [_ Hh]]]].
    exists c. rewrite calls_of_respond, Hh.
    split; [reflexivity|]. split; [exact Hm|]. split; [exact Hu|].
    intros result R. rewrite R. apply respond_ret.
Qed.

Lemma valid_request_is_dispatched_on_sanitized_params_witness :
  given "watch_id" (sanitize_items [("watch_id", VStr " abc<123> ")])
  /\ exists c,
      calls_of (async_handler env_remote_up
                  (request "get_history" [("watch_id", VStr " abc<123> ")]))
      = [c]
      /\ call_method c = "GET"
      /\ call_url c = "http://localhost:5000/api/v1/watch/abc123/history"
      /\ async_handler env_remote_up
           (request "get_history" [("watch_id", VStr " abc<123> ")])
         = ([c], inr (create_response env_remote_up 200
                        [("success", VBool true); ("data", VDict [])] None)).
Proof.
  assert (G : given "watch_id"
                (sanitize_items [("watch_id", VStr " abc<123> ")]))
    by (eexists; split; reflexivity).
  split; [exact G|].
  destruct (@valid_request_is_dispatched_on_sanitized_params env_remote_up
              (request "get_history" [("watch_id", VStr " abc<123> ")])
              [("action", VStr "get_history");
               ("params", VDict [("watch_id", VStr " abc<123> ")])]
              "get_history"
              (mkDescriptor "GET"
                 [Lit "/api/v1/watch/"; Param "watch_id"; Lit "/history"]
                 ["watch_id"])
              [("watch_id", VStr " abc<123> ")]
              eq_refl eq_refl eq_refl
              (or_intror (or_intror (or_intror (or_intror
                 (or_intror (or_introl eq_refl))))))
              eq_refl
              (fun k H => match H with
                          | or_introl e => eq_ind _ (fun k => given k _) G _ e
                          | or_intror f => False_ind _ f
                          end))
    as [_ [c [C [Hm [Hu Hs]]]]].
  exists c. split; [exact C|]. split; [exact Hm|]. split; [exact Hu|].
  apply Hs. injection C as <-. reflexivity.
Defined.

(** X14.  [create_watch] over HTTP sends what sanitization leaves: the body
    of the POST has [url] with the sanitized text, has [tag] with the
    sanitized tag when that is still truthy, and drops a tag that
    sanitization emptied (or that was not given). *)
Theorem http_create_watch_sends_sanitized_values (w : Env)
    (event body params : dict) (u : string) :
  is_preflight event = false ->
  request_body w event = ret (VDict body) ->
  lookup "action" body = Some (VStr "create_watch") ->
  dict_get_default "params" (VDict []) body = VDict params ->
  lookup "url" params = Some (VStr u) ->
  sanitize_str u <> EmptyString ->
  exists c,
    calls_of (async_handler w event) = [c]
    /\ call_method c = "POST"
    /\ call_json c
       = Some (VDict (("url", VStr (sanitize_str u))
                      :: match lookup "tag" params with
                         | Some t =>
                             if truthy (sanitize_input t)
                             then [("tag", sanitize_input t)] else []
                         | None => []
                         end)).
Proof.
  intros P E L G Lu Nu.
  assert (Hin : In ("create_watch", mkDescriptor "POST" [Lit "/api/v1/watch"] ["url"])
                  action_table) by (simpl; tauto).
  assert (Du : dict_get "url" (sanitize_items params) = VStr (sanitize_str u))
    by (unfold dict_get; now rewrite lookup_sanitize_items, Lu).
  assert (Hreq : forall k, In k ["url"] -> given k (sanitize_items params)).
  { intros k [<- | []]. apply given_iff_truthy. rewrite Du.
    now apply truthy_str_iff. }
  rewrite (async_handler_dispatch w event P E L eq_refl G).
  destruct (@handle_action_given w _ _ _ Hin Hreq) as [c [Hm [_ [Hj Hh]]]].
  exists c. rewrite calls_of_respond, Hh.
  split; [reflexivity|]. split; [exact Hm|].
  rewrite (Hj eq_refl), Du. unfold dict_get.
  rewrite lookup_sanitize_items.
  destruct (lookup "tag" params) as [t|]; simpl; [|reflexivity].
  now destruct (truthy (sanitize_input t)).
Qed.

Lemma http_create_watch_sends_sanitized_values_witness :
  sanitize_str "http://example.com<script>" <> EmptyString
  /\ exists c,
      calls_of (async_handler env_remote_up
                  (request "create_watch"
                     [("url", VStr "http://example.com<script>");
                      ("tag", VStr " <> ")])) = [c]
      /\ call_method c = "POST"
      /\ call_json c
         = Some (VDict [("url", VStr "http://example.comscript")]).
Proof.
  assert (N : sanitize_str "http://example.com<script>" <> EmptyString)
    by discriminate.
  split; [exact N|].
  exact (@http_create_watch_sends_sanitized_values env_remote_up
           (request "create_watch"
              [("url", VStr "http://example.com<script>");
               ("tag", VStr " <> ")])
           [("action", VStr "create_watch");
            ("params", VDict [("url", VStr "http://example.com<script>");
                              ("tag", VStr " <> ")])]
           [("url", VStr "http://example.com<script>"); ("tag", VStr " <> ")]
           "http://example.com<script>"
           eq_refl eq_refl eq_refl eq_refl eq_refl N).
Defined.

(** * The tool front end and its catalog *)

(** The entry of a list that fits. *)
Ltac pick_entry := first [left; reflexivity | right; pick_entry].

Lemma call_tool_given (w : Env) (action : string) (desc : descriptor)
    (arguments : dict) :
  In (action, desc) action_table ->
  (forall k, In k (d_required desc) -> given k arguments) ->
  exists c, calls_of (call_tool w action (VDict arguments)) = [c].
Proof.
  intros Hin Hreq. rewrite calls_of_call_tool.
  table_cases Hin; cbn [d_required] in *; pick_branch;
    try (assert (T := given_truthy (Hreq "watch_id" (or_introl eq_refl)));
         rewrite (tool_with_watch_id_given w _ _ T));
    try (assert (T := given_truthy (Hreq "url" (or_introl eq_refl)));
         cbn [py_get]; rewrite !bind_ret_l, T; cbn [negb]);
    rewrite calls_of_bind_ret; eexists; reflexivity.
Qed.

(** X15.  The catalog of [list_tools] and [call_tool] agree.  The catalog
    names the seven actions of the table, in its order.  For each tool of
    the catalog, every argument its schema requires is one its schema
    declares; called with a mapping that gives each required argument the
    tool issues exactly one outbound call; and called with a required
    argument absent or empty it replies [Error: <argument> is required]
    and sends nothing. *)
Theorem catalog_agrees_with_call_tool (w : Env) :
  map tool_name list_tools = map fst action_table
  /\ forall t, In t list_tools ->
      incl (schema_required (inputSchema t))
           (schema_properties (inputSchema t))
      /\ forall arguments,
          ((forall k, In k (schema_required (inputSchema t)) ->
                      given k arguments) ->
           exists c,
             calls_of (call_tool w (tool_name t) (VDict arguments)) = [c])
          /\ (forall k, In k (schema_required (inputSchema t)) ->
                absent_or_empty k arguments ->
                call_tool w (tool_name t) (VDict arguments)
                = ret (text_reply ("Error: " ++ k ++ " is required"))).
Proof.
  split; [reflexivity|].
  intros t Hin. simpl in Hin.
  repeat (destruct Hin as [<- | Hin]); try contradiction Hin;
    (split; [intros k Hk; simpl in *; tauto|]);
    intros arguments; cbn [tool_name inputSchema];
    (split;
     [intros Hreq; eapply call_tool_given; [simpl; pick_entry | exact Hreq]
     |intros k Hk Hm; apply absent_or_empty_falsy in Hm;
      eapply call_tool_missing; [simpl; pick_entry | exact Hk | exact Hm]]).
Qed.

(** X16.  Both dispatchers turn down a name they do not know without
    sending anything: [handle_action] raises the [ServerlessError]
    [Unknown action: <action>] with status 400 for every action that is not
    one of the eight names, and [call_tool] replies
    [Error: Unknown tool '<name>'] for every name that is not in the
    catalog. *)
Theorem unknown_names_are_turned_down (w : Env) :
  (forall action params,
      existsb (eq_str action) valid_actions = false ->
      handle_action w action params
      = raise (ServerlessError ("Unknown action: " ++ py_str w action) 400 []))
  /\ (forall name arguments,
        ~ In name (map tool_name list_tools) ->
        call_tool w name arguments
        = ret (text_reply ("Error: Unknown tool '" ++ name ++ "'"))).
Proof.
  split.
  - intros action params V.
    cbn [existsb valid_actions] in V.
    repeat (apply orb_false_iff in V; destruct V as [? V]).
    unfold handle_action, handle_action_body.
    repeat match goal with
           | H : eq_str action _ = false |- _ => rewrite H; clear H
           end.
    reflexivity.
  - intros name arguments N. cbn [map list_tools tool_name] in N.
    unfold call_tool, call_tool_body.
    repeat match goal with
           | |- context [if name =? ?s then _ else _] =>
               destruct (String.eqb_spec name s) as [-> | ?];
               [exfalso; apply N; simpl; tauto|]
           end.
    reflexivity.
Qed.

Lemma unknown_names_are_turned_down_witness :
  handle_action env_remote_up (VStr "unknown_action") (VDict [])
  = raise (ServerlessError ("Unknown action: " ++ "unknown_action") 400 [])
  /\ call_tool env_remote_up "health_check" (VDict [])
     = ret (text_reply ("Error: Unknown tool '" ++ "health_check" ++ "'")).
Proof.
  split.
  - apply (proj1 (unknown_names_are_turned_down env_remote_up)
             (VStr "unknown_action") (VDict [])). reflexivity.
  - apply (proj2 (unknown_names_are_turned_down env_remote_up)
             "health_check" (VDict [])).
    simpl. intros H.
    repeat (destruct H as [H | H]; [discriminate H|]). exact H.
Defined.

(** X17.  [call_tool] reads its arguments only where a tool takes some.
    With arguments that are no mapping ([None], a list, a string),
    [list_watches] and [system_info] still issue their call, and each of
    the five other tools replies
    [Error: '<type>' object has no attribute 'get'] and sends nothing. *)
Theorem arguments_that_are_no_mapping (w : Env) (name : string)
    (arguments : value) :
  type_name arguments <> "dict" ->
  (In name ["list_watches"; "system_info"] ->
   exists c, calls_of (call_tool w name arguments) = [c])
  /\ (In name ["get_watch"; "create_watch"; "delete_watch";
               "trigger_check"; "get_history"] ->
      call_tool w name arguments
      = ret (text_reply
               ("Error: '" ++ type_name arguments
                ++ "' object has no attribute 'get'"))).
Proof.
  intros N. split.
  - intros [<- | [<- | []]]; rewrite calls_of_call_tool; pick_branch;
      rewrite calls_of_bind_ret; eexists; reflexivity.
  - intros H. simpl in H.
    repeat (destruct H as [<- | H]); try contradiction H;
      destruct arguments; try (now contradiction N); reflexivity.
Qed.

Lemma arguments_that_are_no_mapping_witness :
  type_name VNull <> "dict"
  /\ (exists c, calls_of (call_tool env_remote_up "list_watches" VNull) = [c])
  /\ call_tool env_remote_up "get_watch" VNull
     = ret (text_reply
              ("Error: '" ++ "NoneType" ++ "' object has no attribute 'get'")).
Proof.
  assert (N : type_name VNull <> "dict") by discriminate.
  split; [exact N|].
  destruct (@arguments_that_are_no_mapping env_remote_up "list_watches" VNull N)
    as [A _].
  destruct (@arguments_that_are_no_mapping env_remote_up "get_watch" VNull N)
    as [_ B].
  split; [apply A; simpl; tauto | apply B; simpl; tauto].
Defined.

(** * [handler] and the context *)

(** X18.  [handler] answers as [async_handler] does on the event alone
    when it is given no context, a falsy one or a mapping.  A context that
    is truthy and no mapping is asked for [get] before the [try] block is
    entered: the [AttributeError] leaves [handler] unconverted, and nothing
    is sent. *)
Theorem handler_depends_on_the_context_only_to_fail (w : Env)
    (event : dict) :
  handler w event None = async_handler w event
  /\ (forall context,
        truthy context = false \/ type_name context = "dict" ->
        handler w event (Some context) = async_handler w event)
  /\ (forall context,
        truthy context = true -> type_name context <> "dict" ->
        handler w event (Some context)
        = raise (PyError "AttributeError"
                   ("'" ++ type_name context
                    ++ "' object has no attribute 'get'"))).
Proof.
  unfold handler, async_handler_in_context, request_id.
  split; [cbn [truthy]; now rewrite bind_ret_l|]. split.
  - intros context [F | D].
    + rewrite F. now rewrite bind_ret_l.
    + destruct context; try discriminate D.
      destruct (truthy (VDict entries)); cbn [py_get_default];
        now rewrite bind_ret_l.
  - intros context T N. rewrite T.
    destruct context; try (now contradiction N); reflexivity.
Qed.

Lemma handler_depends_on_the_context_only_to_fail_witness :
  handler env_remote_up (request "health_check" [])
    (Some (VDict [("requestId", VStr "r-1")]))
  = async_handler env_remote_up (request "health_check" [])
  /\ handler env_remote_up (request "health_check" []) (Some (VStr "r-1"))
     = raise (PyError "AttributeError"
                ("'" ++ "str" ++ "' object has no attribute 'get'")).
Proof.
  destruct (handler_depends_on_the_context_only_to_fail env_remote_up
              (request "health_check" [])) as [_ [A B]].
  split.
  - apply A. now right.
  - apply (B (VStr "r-1")); [reflexivity | discriminate].
Defined.

(** * Every outbound call *)

Lemma tool_op_calls (w : Env) {B} (op : M value) (f : value -> B) :
  client_op w op ->
  at_most_one_client_call w (calls_of (result <- op ;; ret (f result))).
Proof.
  intros [c [S ->]]. rewrite calls_of_bind_ret. right. now exists c.
Qed.

Lemma tool_with_watch_id_calls (w : Env) (arguments : value)
    (op : value -> M value) :
  (forall v, client_op w (op v)) ->
  at_most_one_client_call w (calls_of (tool_with_watch_id w arguments op)).
Proof.
  intros Hop. unfold tool_with_watch_id.
  destruct arguments; try (now left).
  cbn [py_get]. rewrite bind_ret_l.
  destruct (truthy (dict_get "watch_id" entries)); cbn [negb]; [|now left].
  apply tool_op_calls, Hop.
Qed.

Lemma call_tool_body_calls (w : Env) (name : string) (arguments : value) :
  at_most_one_client_call w (calls_of (call_tool_body w name arguments)).
Proof.
  unfold call_tool_body.
  repeat match goal with
         | |- context [if name =? ?s then _ else _] => destruct (name =? s)
         end;
    try (apply tool_with_watch_id_calls; auto with pure_db);
    try (apply tool_op_calls; auto with pure_db);
    try (now left).
  destruct arguments; try (now left).
  cbn [py_get]. rewrite !bind_ret_l.
  destruct (truthy (dict_get "url" entries)); cbn [negb]; [|now left].
  apply tool_op_calls. auto with pure_db.
Qed.

(** X19.  Whatever its name and arguments, [call_tool] issues no outbound
    call or exactly one.  Every call that either front end issues has the
    timeout of 30; it carries the [x-api-key] header with the configured
    key when that key is not empty and no header otherwise; its URL is the
    configured base URL without its trailing slashes followed by an
    endpoint under [/api/v1/]; its method is GET, POST or DELETE; and only
    a POST has a JSON body. *)
Theorem every_call_is_a_call_of_the_client (w : Env) (event : dict)
    (name : string) (arguments : value) :
  (List.length (calls_of (call_tool w name arguments)) <= 1)%nat
  /\ forall c,
      In c (calls_of (call_tool w name arguments))
      \/ In c (calls_of (async_handler w event)) ->
      call_timeout c = 30%Z
      /\ call_headers c
         = (if truthy (VStr (API_KEY w))
            then [("x-api-key", VStr (API_KEY w))] else [])
      /\ (exists endpoint,
             call_url c = rstrip_char "/" (BASE_URL w) ++ endpoint
             /\ startswith "/api/v1/" endpoint = true)
      /\ In (call_method c) ["GET"; "POST"; "DELETE"]
      /\ (call_method c = "POST" \/ call_json c = None).
Proof.
  assert (T := call_tool_body_calls w name arguments).
  rewrite <- calls_of_call_tool in T.
  destruct (async_handler_always_answers_aux w event) as [cs [r [E A]]].
  split.
  - destruct T as [-> | [c [-> _]]]; simpl; lia.
  - intros c H.
    assert (S : sent_by_client w c).
    { destruct H as [H | H].
      - destruct T as [T | [c' [T S]]]; rewrite T in H; [contradiction H|].
        destruct H as [<- | []]. exact S.
      - rewrite E in H. cbn [calls_of fst] in H.
        destruct A as [-> | [c' [-> S]]]; [contradiction H|].
        destruct H as [<- | []]. exact S. }
    destruct S as [method [endpoint [json [-> [Hm [He Hj]]]]]].
    repeat split; try assumption. now exists endpoint.
Qed.

(** * What comes back *)

(** X20.  When the call of a request comes back from the transport (a 2xx
    response), the text of the response decides the answer: an empty text
    is a success with the empty object for [data]; a text that
    [json.loads] decodes is a success with the document for [data]; a text
    that it rejects is a status 500 whose error holds the text of the
    decoder and whose [details.error_type] is [JSONDecodeError]. *)
Theorem remote_reply_decides_the_answer (w : Env) (event : dict)
    (c : Call) (text : string) :
  calls_of (async_handler w event) = [c] ->
  transport w c = inr text ->
  (text = EmptyString ->
   async_handler w event
   = ([c], inr (create_response w 200
                  [("success", VBool true); ("data", VDict [])] None)))
  /\ (forall document,
        text <> EmptyString -> json_loads w text = inr document ->
        async_handler w event
        = ([c], inr (create_response w 200
                       [("success", VBool true); ("data", document)] None)))
  /\ (forall err,
        text <> EmptyString -> json_loads w text = inl err ->
        exists action,
          async_handler w event
          = ([c], inr (classified_error_response w
                         ("Internal server error: " ++ err) 500
                         [("action", action);
                          ("error_type", VStr "JSONDecodeError")]))).
Proof.
  intros C T.
  destruct (async_handler_cases w event)
    as [[r E] | [body [action [params [_ [_ [_ [_ E]]]]]]]];
    rewrite E in C |- *; [discriminate C|].
  rewrite calls_of_respond in C.
  destruct (handle_action_outcome w (sanitize_input action)
              (sanitize_input params))
    as [[result [H _]] | [[m [code [d [H _]]]] | [c' [_ H]]]];
    rewrite H in C |- *; try discriminate C.
  injection C as ->. unfold settle. rewrite T.
  repeat split.
  - intros ->. cbn [truthy]. apply respond_ret.
  - intros document N J. apply truthy_str_iff in N. rewrite N, J.
    apply respond_ret.
  - intros err N J. apply truthy_str_iff in N. rewrite N, J.
    exists (sanitize_input action). apply respond_raise.
Qed.

Lemma remote_reply_decides_the_answer_witness :
  transport env_remote_up
    (mkCall "GET" "http://localhost:5000/api/v1/watch" [] None 30)
  = inr EmptyString
  /\ async_handler env_remote_up (request "list_watches" [])
     = ([mkCall "GET" "http://localhost:5000/api/v1/watch" [] None 30],
        inr (create_response env_remote_up 200
               [("success", VBool true); ("data", VDict [])] None)).
Proof.
  split; [reflexivity|].
  exact (proj1 (@remote_reply_decides_the_answer env_remote_up
                  (request "list_watches" [])
                  (mkCall "GET" "http://localhost:5000/api/v1/watch" [] None 30)
                  EmptyString eq_refl eq_refl) eq_refl).
Defined.

(** X21.  A request that is not a preflight and whose parsed body is
    [null], a number or a boolean is answered by the last [except] clause:
    status 500, [error: Internal server error], nothing sent, and a
    [message] that shows the exception only when [DEBUG] is ["true"]. *)
Theorem body_that_is_no_container_is_a_500 (w : Env) (event : dict)
    (body : value) :
  is_preflight event = false ->
  request_body w event = ret body ->
  In (type_name body) ["NoneType"; "int"; "bool"] ->
  exists text,
    async_handler w event = ret (unexpected_error_response w text)
    /\ statusCode (unexpected_error_response w text) = 500%Z
    /\ (debug_mode w = false ->
        value_at ["message"]
          (VDict (resp_body (unexpected_error_response w text)))
        = Some (VStr "An unexpected error occurred")).
Proof.
  intros P E H. unfold async_handler, async_handler_body.
  fold (is_preflight event). fold (request_body w event).
  rewrite P, E, bind_ret_l.
  destruct body; simpl in H;
    try (exfalso; repeat (destruct H as [H | H]; [discriminate H|]); exact H);
    (eexists; split; [reflexivity|]; split; [reflexivity|];
     intros D; unfold unexpected_error_response; now rewrite D).
Qed.

Lemma body_that_is_no_container_is_a_500_witness :
  request_body env_remote_up (post_raw (VInt 5)) = ret (VInt 5)
  /\ exists text,
      async_handler env_remote_up (post_raw (VInt 5))
      = ret (unexpected_error_response env_remote_up text)
      /\ statusCode (unexpected_error_response env_remote_up text) = 500%Z.
Proof.
  split; [reflexivity|].
  destruct (@body_that_is_no_container_is_a_500 env_remote_up
              (post_raw (VInt 5)) (VInt 5) eq_refl eq_refl
              (or_intror (or_introl eq_refl))) as [text [A [B _]]].
  now exists text.
Defined.

Lemma length_of_chars (l : list ascii) :
  String.length (of_chars l) = List.length l.
Proof. induction l as [|c r IH]; simpl; [reflexivity | now rewrite IH]. Qed.

(** X22.  Sanitization can empty a value but never fill one: a value that
    is truthy once sanitized was truthy before, and a sanitized string is
    never longer than the string it comes from. *)
Theorem sanitization_only_takes_away (v : value) (s : string) :
  (truthy (sanitize_input v) = true -> truthy v = true)
  /\ (String.length (sanitize_str s) <= String.length s)%nat.
Proof.
  split.
  - destruct v as [| b | n | t | l | d]; try (intros H; exact H).
    + destruct t; [|reflexivity]. discriminate.
    + now destruct l.
    + now destruct d.
  - rewrite sanitize_str_is_spec. unfold sanitize_str_spec.
    rewrite <- (of_chars_chars s) at 2. rewrite !length_of_chars.
    destruct (trim_decompose
                (filter (fun c => negb (stripped_char c)) (chars s)))
      as [pre [suf [E _]]].
    assert (L := filter_length_le (fun c => negb (stripped_char c)) (chars s)).
    rewrite E in L at 1. rewrite !length_app in L. lia.
Qed.
